(** * Klassik-Pop-et-cetera downloader: a shallow embedding of [app/main.py]

    The script fetches the listing page of a radio show, finds the newest
    episode, reads its metadata, downloads the audio with an external tool,
    tags it with a second external tool and moves the result into a target
    directory, unless a file of the computed name is already there.

    Python strings are modelled as lists of Unicode code points, the
    interpreter's library functions ([str.strip], [str.replace], [re],
    [datetime]) by executable functions of the same name, and the
    interaction of [main] with its environment (network, file system,
    clock, child processes) by a small free monad whose runs record the
    calls made. Console output is not modelled. *)

From Stdlib Require Import String Ascii NArith ZArith Bool Lia List.
Import ListNotations.

Local Open Scope N_scope.

(** ** Strings *)

Definition pystr := list N.

(** An ASCII literal as a Python string. *)
Definition lit (s : string) : pystr :=
  map N_of_ascii (list_ascii_of_string s).

Arguments lit : simpl never.

Definition LF : N := 10.
Definition CR : N := 13.
Definition SPACE : N := 32.
Definition DQUOTE : N := 34.
Definition SLASH : N := 47.
Definition EQUALS : N := 61.
Definition BACKSLASH : N := 92.
Definition UNDERSCORE : N := 95.

Definition pystr_eqb (a b : pystr) : bool :=
  if list_eq_dec N.eq_dec a b then true else false.

(** [str.isspace] on one code point, which is also what [\s] matches in a
    [str] pattern: U+0009..U+000D, U+001C..U+0020, U+0085, U+00A0, U+1680,
    U+2000..U+200A, U+2028, U+2029, U+202F, U+205F, U+3000. *)
Definition py_isspace (c : N) : bool :=
  ((9 <=? c) && (c <=? 13)) || ((28 <=? c) && (c <=? 32))
  || (c =? 133) || (c =? 160) || (c =? 5760)
  || ((8192 <=? c) && (c <=? 8202))
  || (c =? 8232) || (c =? 8233) || (c =? 8239) || (c =? 8287) || (c =? 12288).

(** [str.lstrip()], [str.rstrip()] and [str.strip()] without argument. *)
Fixpoint lstrip (s : pystr) : pystr :=
  match s with
  | [] => []
  | c :: s' => if py_isspace c then lstrip s' else s
  end.

Fixpoint rstrip (s : pystr) : pystr :=
  match s with
  | [] => []
  | c :: s' =>
      match rstrip s' with
      | [] => if py_isspace c then [] else [c]
      | r => c :: r
      end
  end.

Definition strip (s : pystr) : pystr := rstrip (lstrip s).

(** [str.startswith]. *)
Fixpoint startswith (s prefix : pystr) {struct prefix} : bool :=
  match prefix, s with
  | [], _ => true
  | p :: prefix', c :: s' => (p =? c) && startswith s' prefix'
  | _ :: _, [] => false
  end.

(** [str.replace(old, new)]: the occurrences of [old] are replaced from
    left to right without overlap. [skip] counts the characters of a
    matched occurrence that are still to be passed over. *)
Fixpoint replace_from (old new : pystr) (skip : nat) (s : pystr) : pystr :=
  match s with
  | [] => []
  | c :: s' =>
      match skip with
      | S k => replace_from old new k s'
      | O =>
          if startswith s old
          then new ++ replace_from old new (length old - 1) s'
          else c :: replace_from old new 0 s'
      end
  end.

Definition str_replace (old new s : pystr) : pystr :=
  match old with
  | [] => new ++ flat_map (fun c => c :: new) s
  | _ :: _ => replace_from old new 0 s
  end.

(** [re.sub] of a one-character class by a fixed replacement. *)
Definition re_sub_class (cls : N -> bool) (repl : pystr) (s : pystr) : pystr :=
  flat_map (fun c => if cls c then repl else [c]) s.

(** ** [sanitize_filename_component] *)

(** The character class of the pattern: backslash, slash, star, question
    mark, colon, double quote, less-than, greater-than and vertical bar. *)
Definition invalid_filename_char (c : N) : bool :=
  existsb (N.eqb c) [BACKSLASH; SLASH; 42; 63; 58; DQUOTE; 60; 62; 124].

Definition sanitize_filename_component (name_component : pystr) : pystr :=
  let name_component :=
    re_sub_class invalid_filename_char (lit "_") name_component in
  let name_component :=
    str_replace [CR] (lit "_") (str_replace [LF] (lit "_") name_component) in
  strip name_component.

(** The characters the sanitizer is to remove: the class above, newline and
    carriage return. *)
Definition forbidden (c : N) : bool :=
  invalid_filename_char c || (c =? LF) || (c =? CR).

(** What the three replacement steps do to one character. *)
Definition scrub (c : N) : N := if forbidden c then UNDERSCORE else c.

(** Whitespace that [strip] can still see after the replacements. *)
Definition trimmable (c : N) : bool := py_isspace c && negb (forbidden c).

(** [sep.join(parts)]. *)
Definition str_join (sep : pystr) (parts : list pystr) : pystr :=
  match parts with
  | [] => []
  | p :: ps => p ++ flat_map (fun q => sep ++ q) ps
  end.

(** [os.path.join] of two components on a POSIX system. *)
Definition os_path_join (a b : pystr) : pystr :=
  if startswith b [SLASH] then b
  else
    match a with
    | [] => b
    | _ :: _ => if last a 0 =? SLASH then a ++ b else a ++ [SLASH] ++ b
    end.

(** ** Regular expressions

    The patterns of the script are written with a small backtracking
    matcher in continuation style: a pattern takes the matcher of what
    follows it and the text still to be read. Alternatives and repetitions
    are tried in the order Python's [re] tries them. *)

Section Regex.
Context {A : Type}.

Definition cont := pystr -> option A.

(** A literal piece of text. *)
Definition re_lit (l : pystr) (k : cont) : cont :=
  fun s => if startswith s l then k (skipn (length l) s) else None.

(** One character of a class. *)
Definition re_class (cls : N -> bool) (k : cont) : cont :=
  fun s =>
    match s with
    | c :: s' => if cls c then k s' else None
    | [] => None
    end.

(** [cls{n}]. *)
Fixpoint re_repeat (n : nat) (cls : N -> bool) (k : cont) : cont :=
  match n with
  | O => k
  | S n' => re_class cls (re_repeat n' cls k)
  end.

(** [.*?] under [re.DOTALL]: the shortest skip first. *)
Fixpoint re_lazy_any (k : cont) (s : pystr) : option A :=
  match k s with
  | Some r => Some r
  | None =>
      match s with
      | [] => None
      | _ :: s' => re_lazy_any k s'
      end
  end.

(** [cls+], greedy: one character, then more before fewer. *)
Fixpoint re_plus (cls : N -> bool) (k : cont) (s : pystr) : option A :=
  match s with
  | c :: s' =>
      if cls c then
        match re_plus cls k s' with
        | Some r => Some r
        | None => k s'
        end
      else None
  | [] => None
  end.

(** [a|b|...]: the first alternative with which the whole match succeeds. *)
Fixpoint re_alt (ms : list (cont -> cont)) (k : cont) (s : pystr) : option A :=
  match ms with
  | [] => None
  | m :: ms' =>
      match m k s with
      | Some r => Some r
      | None => re_alt ms' k s
      end
  end.

(** A capturing group: the continuation receives the text [m] consumed. *)
Definition re_group (m : cont -> cont) (k : pystr -> cont) : cont :=
  fun s => m (fun rest => k (firstn (length s - length rest) s) rest) s.

(** [re.search]: the leftmost start position at which the pattern matches. *)
Fixpoint re_search (m : cont) (s : pystr) : option A :=
  match m s with
  | Some r => Some r
  | None =>
      match s with
      | [] => None
      | _ :: s' => re_search m s'
      end
  end.
End Regex.

Definition in_range (lo hi c : N) : bool := (lo <=? c) && (c <=? hi).
Definition chr_is (a c : N) : bool := c =? a.

(** The code points of the digit zero of every decimal digit block of
    Unicode 14 (general category Nd); the nine code points after each are
    the digits one to nine. [\d] in a [str] pattern matches these, and
    [int] reads them. *)
Definition decimal_zeros : list N :=
  [48; 1632; 1776; 1984; 2406; 2534; 2662; 2790; 2918; 3046; 3174; 3302;
   3430; 3558; 3664; 3792; 3872; 4160; 4240; 6112; 6160; 6470; 6608; 6784;
   6800; 6992; 7088; 7232; 7248; 42528; 43216; 43264; 43472; 43504; 43600;
   44016; 65296; 66720; 68912; 69734; 69872; 69942; 70096; 70384; 70736;
   70864; 71248; 71360; 71472; 71904; 72016; 72784; 73040; 73120; 92768;
   92864; 93008; 120782; 120792; 120802; 120812; 120822; 123200; 123632;
   125264; 130032].

Definition unicode_decimal (c : N) : option N :=
  match find (fun z => (z <=? c) && (c <? z + 10)) decimal_zeros with
  | Some z => Some (c - z)
  | None => None
  end.

Definition is_decimal (c : N) : bool :=
  match unicode_decimal c with Some _ => true | None => false end.

(** [int(s)] for a string of decimal digits, surrounding whitespace allowed. *)
Definition int_of_str (s : pystr) : N :=
  fold_left
    (fun acc c => 10 * acc + match unicode_decimal c with Some d => d | None => 0 end)
    (strip s) 0.

Definition DOT : N := 46.
Definition DASH : N := 45.
Definition ZERO : N := 48.

(** The pattern of step 2, compiled with [re.DOTALL]: the opening of an
    article teaser, the shortest stretch of anything, an anchor that opens
    with its href, and the href up to the next double quote as group
    [relativeUrl]. *)
Definition teaser_link_search (main_page_html : pystr) : option pystr :=
  re_search
    (re_lit (lit "<article class=" ++ [DQUOTE] ++ lit "b-article-teaser")
       (re_lazy_any
          (re_lit (lit "<a href=" ++ [DQUOTE])
             (re_group (re_plus (fun c => negb (c =? DQUOTE)))
                (fun relativeUrl =>
                   re_lit [DQUOTE] (fun _ => Some relativeUrl))))))
    main_page_html.

(** The pattern of the date search: two digits, a dot, two digits, a dot,
    four digits, the whole as group 1. *)
Definition date_search (date_str_raw : pystr) : option pystr :=
  re_search
    (re_group
       (fun k =>
          re_repeat 2 is_decimal
            (re_lit [DOT]
               (re_repeat 2 is_decimal
                  (re_lit [DOT] (re_repeat 4 is_decimal k)))))
       (fun group1 _ => Some group1))
    date_str_raw.

(** [re.sub(r'\s{2,}', ' ', s)]: every maximal run of two or more
    whitespace characters becomes one space. [in_run] is set while the
    rest of a run that is being replaced is passed over. *)
Fixpoint collapse_from (in_run : bool) (s : pystr) : pystr :=
  match s with
  | [] => []
  | c :: s' =>
      if py_isspace c then
        if in_run then collapse_from true s'
        else
          match s' with
          | c2 :: _ =>
              if py_isspace c2 then SPACE :: collapse_from true s'
              else c :: collapse_from false s'
          | [] => [c]
          end
      else c :: collapse_from false s'
  end.

Definition re_sub_whitespace_runs (s : pystr) : pystr := collapse_from false s.

(** ** Exceptions *)

Inductive exception : Type :=
| CalledProcessError (returncode : Z) (stdout stderr : pystr)
| FileNotFoundError (msg : pystr)
| OSError (msg : pystr)
| RequestException (msg : pystr)
| ValueError (msg : pystr)
| OtherException (msg : pystr).

(** What the interpreter can be unwinding with: [SystemExit] is not an
    [Exception], everything else here is. *)
Inductive raised : Type :=
| SystemExit (code : Z)
| Exc (e : exception).

Definition exception_str (e : exception) : pystr :=
  match e with
  | CalledProcessError _ _ _ => lit "Command returned non-zero exit status."
  | FileNotFoundError m | OSError m | RequestException m
  | ValueError m | OtherException m => m
  end.

(** ** Dates *)

Record date : Type := { year : N; month : N; day : N }.

Definition is_leap (y : N) : bool :=
  ((y mod 4 =? 0) && negb (y mod 100 =? 0)) || (y mod 400 =? 0).

Definition days_in_month (y m : N) : N :=
  if m =? 2 then (if is_leap y then 29 else 28)
  else if existsb (N.eqb m) [4; 6; 9; 11] then 30
  else 31.

(** The pattern [datetime.strptime] builds for the format [%d.%m.%Y]: the
    alternatives of the day, of the month, the four digits of the year;
    its three groups and the text left over. *)
Section StrptimePattern.
Context {A : Type}.

Definition directive_d : list (@cont A -> @cont A) :=
  [ (fun k => re_class (chr_is 51) (re_class (in_range 48 49) k));
    (fun k => re_class (in_range 49 50) (re_class is_decimal k));
    (fun k => re_class (chr_is 48) (re_class (in_range 49 57) k));
    (fun k => re_class (in_range 49 57) k);
    (fun k => re_class (chr_is SPACE) (re_class (in_range 49 57) k)) ].

Definition directive_m : list (@cont A -> @cont A) :=
  [ (fun k => re_class (chr_is 49) (re_class (in_range 48 50) k));
    (fun k => re_class (chr_is 48) (re_class (in_range 49 57) k));
    (fun k => re_class (in_range 49 57) k) ].

Definition directive_Y : @cont A -> @cont A := re_repeat 4 is_decimal.
End StrptimePattern.

Definition strptime_pattern (data_string : pystr)
  : option (pystr * pystr * pystr * pystr) :=
  re_group (re_alt directive_d)
    (fun d =>
       re_lit [DOT]
         (re_group (re_alt directive_m)
            (fun m =>
               re_lit [DOT]
                 (re_group directive_Y
                    (fun Y rest => Some (d, m, Y, rest))))))
    data_string.

(** [datetime.strptime(data_string, '%d.%m.%Y')]: [ValueError] when the text
    does not match the format, when text is left over, or when the fields
    are no date of the calendar (years run from 1 to 9999). *)
Definition strptime (data_string : pystr) : exception + date :=
  match strptime_pattern data_string with
  | None => inl (ValueError (lit "time data does not match format"))
  | Some (d, m, Y, rest) =>
      match rest with
      | _ :: _ => inl (ValueError (lit "unconverted data remains"))
      | [] =>
          let y := int_of_str Y in
          let mo := int_of_str m in
          let dd := int_of_str d in
          if (y <? 1) || (9999 <? y) then
            inl (ValueError (lit "year is out of range"))
          else if (mo <? 1) || (12 <? mo) then
            inl (ValueError (lit "month must be in 1..12"))
          else if (dd <? 1) || (days_in_month y mo <? dd) then
            inl (ValueError (lit "day is out of range for month"))
          else inr {| year := y; month := mo; day := dd |}
      end
  end.

(** The last [width] decimal digits of [n], most significant first. *)
Fixpoint zero_padded (width : nat) (n : N) : pystr :=
  match width with
  | O => []
  | S w => zero_padded w (n / 10) ++ [ZERO + n mod 10]
  end.

(** [d.strftime('%Y-%m-%d')], with the year in four digits as the library
    documents [%Y]. *)
Definition strftime (d : date) : pystr :=
  zero_padded 4 (year d) ++ [DASH] ++ zero_padded 2 (month d)
  ++ [DASH] ++ zero_padded 2 (day d).

(** ** The environment of the script

    Every call that leaves the interpreter is an effect: its answer is
    chosen by the environment. A call that can fail answers with an
    exception or a value. *)

Record Response : Type := { status_code : Z; text : pystr }.

Record CompletedProcess : Type :=
  { returncode : Z; stdout : pystr; stderr : pystr }.

Inductive Eff : Type -> Type :=
| os_makedirs (path : pystr) : Eff (exception + unit)
| tempfile_mkdtemp (prefix : pystr) : Eff (exception + pystr)
| tempfile_cleanup (path : pystr) : Eff unit
| requests_get (url : pystr) (timeout : Z) : Eff (exception + Response)
| datetime_now : Eff date
| os_path_exists (path : pystr) : Eff bool
| subprocess_run (command : list pystr) (cwd : option pystr)
    : Eff (exception + CompletedProcess)
| write_text_file (path content : pystr) : Eff (exception + unit)
| shutil_move (src dst : pystr) : Eff (exception + unit).

(** A program: it returns, it raises, or it makes a call and goes on with
    the answer. *)
Inductive prog (A : Type) : Type :=
| Ret (a : A)
| Raise (r : raised)
| Vis {R : Type} (e : Eff R) (k : R -> prog A).

Arguments Ret {A} a.
Arguments Raise {A} r.
Arguments Vis {A R} e k.

Fixpoint bind {A B : Type} (p : prog A) (f : A -> prog B) : prog B :=
  match p with
  | Ret a => f a
  | Raise r => Raise r
  | Vis e k => Vis e (fun x => bind (k x) f)
  end.

Declare Scope prog_scope.
Delimit Scope prog_scope with prog.
Notation "x <- p ;; q" := (bind p (fun x => q))
  (at level 61, p at next level, right associativity) : prog_scope.
Notation "p ;; q" := (bind p (fun _ => q))
  (at level 61, right associativity) : prog_scope.
Local Open Scope prog_scope.

(** A call that cannot fail, and one whose exception is raised in the caller. *)
Definition perform {R : Type} (e : Eff R) : prog R := Vis e Ret.

Definition call {R : Type} (e : Eff (exception + R)) : prog R :=
  Vis e (fun r => match r with inl x => Raise (Exc x) | inr v => Ret v end).

Definition sys_exit {A : Type} (code : Z) : prog A := Raise (SystemExit code).

(** [try: p  except ...:] the clauses are given as one function that
    answers [None] for an exception no clause catches. [SystemExit] passes
    through every clause of the script. *)
Fixpoint try_except {A : Type} (p : prog A)
    (clauses : exception -> option (prog A)) : prog A :=
  match p with
  | Ret a => Ret a
  | Raise (SystemExit c) => Raise (SystemExit c)
  | Raise (Exc x) =>
      match clauses x with
      | Some h => h
      | None => Raise (Exc x)
      end
  | Vis e k => Vis e (fun r => try_except (k r) clauses)
  end.

(** [cleanup] runs however [p] ends. *)
Fixpoint finally {A : Type} (p : prog A) (cleanup : prog unit) : prog A :=
  match p with
  | Ret a => cleanup ;; Ret a
  | Raise r => cleanup ;; Raise r
  | Vis e k => Vis e (fun r => finally (k r) cleanup)
  end.

(** [with tempfile.TemporaryDirectory(prefix=...) as temp_dir: body]. The
    removal of the directory the run itself created is taken to succeed. *)
Definition with_TemporaryDirectory {A : Type} (prefix : pystr)
    (body : pystr -> prog A) : prog A :=
  temp_dir <- call (tempfile_mkdtemp prefix) ;;
  finally (body temp_dir) (perform (tempfile_cleanup temp_dir)).

(** The clauses of the script. *)
Definition except_Exception {A : Type} (h : exception -> prog A)
  : exception -> option (prog A) := fun x => Some (h x).

Definition except_RequestException {A : Type} (h : exception -> prog A)
  : exception -> option (prog A) :=
  fun x => match x with RequestException _ => Some (h x) | _ => None end.

Definition except_ValueError {A : Type} (h : exception -> prog A)
  : exception -> option (prog A) :=
  fun x => match x with ValueError _ => Some (h x) | _ => None end.

(** [IOError] is [OSError]; [FileNotFoundError] and the exceptions of
    [requests] are subclasses of it. *)
Definition except_IOError {A : Type} (h : exception -> prog A)
  : exception -> option (prog A) :=
  fun x =>
    match x with
    | OSError _ | FileNotFoundError _ | RequestException _ => Some (h x)
    | _ => None
    end.

(** *** Runs *)

Inductive event : Type :=
| EvMakedirs (path : pystr) (r : exception + unit)
| EvMkdtemp (prefix : pystr) (r : exception + pystr)
| EvCleanup (path : pystr)
| EvGet (url : pystr) (timeout : Z) (r : exception + Response)
| EvNow (d : date)
| EvExists (path : pystr) (b : bool)
| EvRun (command : list pystr) (cwd : option pystr)
    (r : exception + CompletedProcess)
| EvWrite (path content : pystr) (r : exception + unit)
| EvMove (src dst : pystr) (r : exception + unit).

Definition event_of {R : Type} (e : Eff R) : R -> event :=
  match e in Eff R return R -> event with
  | os_makedirs p => EvMakedirs p
  | tempfile_mkdtemp p => EvMkdtemp p
  | tempfile_cleanup p => fun _ => EvCleanup p
  | requests_get u t => EvGet u t
  | datetime_now => EvNow
  | os_path_exists p => EvExists p
  | subprocess_run c d => EvRun c d
  | write_text_file p c => EvWrite p c
  | shutil_move s d => EvMove s d
  end.

(** The environment: a state and, for every call, an answer and the next
    state. *)
Definition handler (W : Type) : Type := forall R : Type, Eff R -> W -> R * W.

Inductive outcome (A : Type) : Type :=
| Returned (a : A)
| Raised (r : raised).

Arguments Returned {A} a.
Arguments Raised {A} r.

Record run_result (W A : Type) : Type :=
  { result : outcome A; trace : list event; final : W }.

Arguments result {W A} _.
Arguments trace {W A} _.
Arguments final {W A} _.

Fixpoint run {W A : Type} (h : handler W) (p : prog A) (w : W)
  : run_result W A :=
  match p with
  | Ret a => {| result := Returned a; trace := []; final := w |}
  | Raise r => {| result := Raised r; trace := []; final := w |}
  | Vis e k =>
      let rw := h _ e w in
      let rest := run h (k (fst rw)) (snd rw) in
      {| result := result rest;
         trace := event_of e (fst rw) :: trace rest;
         final := final rest |}
  end.

(** The exit status of the process: the argument of [sys.exit], or 1 when
    an exception reaches the top. *)
Definition exit_status {A : Type} (o : outcome A) : Z :=
  match o with
  | Returned _ => 0%Z
  | Raised (SystemExit c) => c
  | Raised (Exc _) => 1%Z
  end.

(** ** The HTML parser

    [BeautifulSoup] is used through four operations; the parser itself is
    outside the script. *)
Class Dom : Type :=
  { Soup : Type;
    Tag : Type;
    (** [BeautifulSoup(markup, 'html.parser')] *)
    BeautifulSoup : pystr -> Soup;
    (** [soup.find(name, class_=cls)], [soup.find(name)] *)
    soup_find : Soup -> pystr -> option pystr -> option Tag;
    (** [tag.find(name, href=True)] *)
    tag_find_with_href : Tag -> pystr -> option Tag;
    (** [tag.get(attr)] *)
    tag_get : Tag -> pystr -> option pystr;
    (** [tag.text] *)
    tag_text : Tag -> pystr }.

(** ** The script *)

Definition MAIN_PAGE_URL : pystr :=
  lit "https://www.deutschlandfunk.de/klassik-pop-et-cetera-100.html".
Definition BASE_URL : pystr := lit "https://www.deutschlandfunk.de".
Definition YT_DLP_EXECUTABLE : pystr := lit "yt-dlp".
Definition FFMPEG_EXECUTABLE : pystr := lit "ffmpeg".

(** [os.getenv("TARGET_DIR_CONTAINER", "/mnt/podcasts")], from the value of
    the variable in the environment of the process. *)
Definition TARGET_DIR_CONTAINER (environ : option pystr) : pystr :=
  match environ with
  | Some v => v
  | None => lit "/mnt/podcasts"
  end.

Definition raise_or_return {A : Type} (r : exception + A) : prog A :=
  match r with
  | inl x => Raise (Exc x)
  | inr v => Ret v
  end.

(** [response.raise_for_status()]: client and server errors raise an
    [HTTPError], which is a [RequestException]. *)
Definition raise_for_status (response : Response) : prog unit :=
  if ((400 <=? status_code response) && (status_code response <? 600))%Z
  then Raise (Exc (RequestException (lit "HTTPError")))
  else Ret tt.

(** [subprocess.run(command, check=True, capture_output=True, ...)]. *)
Definition subprocess_run_check (command : list pystr) (cwd : option pystr)
  : prog CompletedProcess :=
  process <- call (subprocess_run command cwd) ;;
  if (returncode process =? 0)%Z then Ret process
  else Raise (Exc (CalledProcessError (returncode process)
                     (stdout process) (stderr process))).

Definition run_external_command (executable : pystr) (arguments : list pystr)
    (workdir : option pystr) : prog (bool * pystr) :=
  let command := executable :: arguments in
  try_except
    (process <- subprocess_run_check command workdir ;;
     Ret (true, strip (stdout process)))
    (fun e =>
       match e with
       | CalledProcessError _ _ e_stderr => Some (Ret (false, strip e_stderr))
       | FileNotFoundError _ => Some (Ret (false, executable ++ lit " not found."))
       | _ => Some (Ret (false, exception_str e))
       end).

(** [a or b] where [b] is only evaluated when [a] is false. *)
Definition or_else (a : bool) (b : prog bool) : prog bool :=
  if a then Ret true else b.

Definition escape_for_ffmetadata (text : option pystr) : pystr :=
  match text with
  | None => []
  | Some text =>
      str_replace [EQUALS] (lit "\=")
        (str_replace [CR] (lit "\r")
           (str_replace [LF] (lit "\n")
              (str_replace [BACKSLASH] (lit "\\") text)))
  end.

(** The values read from the episode page. *)
Record Metadata : Type :=
  { meta_episode_title : pystr;
    meta_subtitle_for_description_tag : pystr;
    meta_description_for_comment_tag : pystr;
    meta_iso_date_str : pystr }.

(** [f"{meta_iso_date_str} {safe_filename_episode_title}.m4a"] under the
    target directory. *)
Definition final_filename (meta_iso_date_str meta_episode_title : pystr) : pystr :=
  let safe_filename_episode_title :=
    sanitize_filename_component meta_episode_title in
  meta_iso_date_str ++ lit " " ++ safe_filename_episode_title ++ lit ".m4a".

Definition final_filepath_in_target_dir (environ : option pystr)
    (meta_iso_date_str meta_episode_title : pystr) : pystr :=
  os_path_join (TARGET_DIR_CONTAINER environ)
    (final_filename meta_iso_date_str meta_episode_title).

(** URL zusammensetzen (falls relativ). *)
Definition resolve_episode_url (relative_episode_url : pystr) : pystr :=
  if startswith relative_episode_url (lit "/")
  then BASE_URL ++ relative_episode_url
  else relative_episode_url.

Section Script.
Context {D : Dom}.

(** 1. Lade Hauptseite. *)
Definition load_main_page : prog pystr :=
  try_except
    (main_page_response <- call (requests_get MAIN_PAGE_URL 20) ;;
     raise_for_status main_page_response ;;
     Ret (text main_page_response))
    (except_RequestException (fun _ => sys_exit 1)).

(** The fallback of step 2: the first article teaser by class, then the
    first anchor with an href inside it. *)
Definition episode_link_tag (main_page_html : pystr) : option Tag :=
  let soup_main := BeautifulSoup main_page_html in
  let article_teaser :=
    soup_find soup_main (lit "article") (Some (lit "b-article-teaser")) in
  match article_teaser with
  | Some teaser => tag_find_with_href teaser (lit "a")
  | None => None
  end.

(** 2. Finde Link zur neuesten Episode. *)
Definition find_episode_link (main_page_html : pystr) : prog pystr :=
  match teaser_link_search main_page_html with
  | None =>
      match episode_link_tag main_page_html with
      | None => sys_exit 1
      | Some tag =>
          match tag_get tag (lit "href") with
          | None | Some [] => sys_exit 1
          | Some relative_episode_url => Ret relative_episode_url
          end
      end
  | Some relativeUrl => Ret relativeUrl
  end.

(** 3. Lade Episodenseite fuer Metadaten. *)
Definition load_episode_page (episode_url : pystr) : prog Soup :=
  try_except
    (episode_page_response <- call (requests_get episode_url 20) ;;
     raise_for_status episode_page_response ;;
     let episode_html_content := text episode_page_response in
     Ret (BeautifulSoup episode_html_content))
    (except_RequestException (fun _ => sys_exit 1)).

(** [element.text.strip() if element else default]. *)
Definition stripped_text_or (element : option Tag) (default : pystr) : pystr :=
  match element with
  | Some e => strip (tag_text e)
  | None => default
  end.

Definition current_iso_date : prog pystr :=
  now <- perform datetime_now ;; Ret (strftime now).

(** Datum (aus <time>). *)
Definition extract_iso_date (soup_episode : Soup) : prog pystr :=
  let time_element := soup_find soup_episode (lit "time") None in
  let date_str_raw := stripped_text_or time_element [] in
  match date_search date_str_raw with
  | Some group1 =>
      try_except
        (parsed_date <- raise_or_return (strptime group1) ;;
         Ret (strftime parsed_date))
        (except_ValueError (fun _ => current_iso_date))
  | None => current_iso_date
  end.

(** 4. Extrahiere Metadaten: the body of the [try]. *)
Definition extract_metadata (soup_episode : Soup) : prog Metadata :=
  let kicker_element :=
    soup_find soup_episode (lit "span") (Some (lit "headline-kicker")) in
  let title :=
    stripped_text_or kicker_element (lit "Unbekannter Sendungstitel") in
  let headline_title_element :=
    soup_find soup_episode (lit "span") (Some (lit "headline-title")) in
  let subtitle := stripped_text_or headline_title_element [] in
  let desc_element :=
    soup_find soup_episode (lit "p") (Some (lit "article-header-description")) in
  let description :=
    re_sub_whitespace_runs (stripped_text_or desc_element []) in
  iso_date <- extract_iso_date soup_episode ;;
  Ret {| meta_episode_title := title;
         meta_subtitle_for_description_tag := subtitle;
         meta_description_for_comment_tag := description;
         meta_iso_date_str := iso_date |}.

(** 6. Lade Episode mit yt-dlp herunter. *)
Definition download_episode (temp_download_path_m4a episode_url : pystr)
  : prog unit :=
  let yt_dlp_args :=
    [lit "-f"; lit "m4a"; lit "--output"; temp_download_path_m4a; episode_url] in
  r <- run_external_command YT_DLP_EXECUTABLE yt_dlp_args None ;;
  let success := fst r in
  failed <- or_else (negb success)
              (present <- perform (os_path_exists temp_download_path_m4a) ;;
               Ret (negb present)) ;;
  if failed : bool then sys_exit 1 else Ret tt.

Definition ffmetadata_content (m : Metadata) (episode_url : pystr) : list pystr :=
  [ lit ";FFMETADATA1";
    lit "album=Klassik, Pop et cetera";
    lit "artist=Deutschlandfunk";
    lit "title=" ++ escape_for_ffmetadata (Some (meta_episode_title m));
    lit "description="
      ++ escape_for_ffmetadata (Some (meta_subtitle_for_description_tag m));
    lit "comment="
      ++ escape_for_ffmetadata (Some (meta_description_for_comment_tag m));
    lit "date=" ++ escape_for_ffmetadata (Some (meta_iso_date_str m));
    lit "copyright=" ++ escape_for_ffmetadata (Some episode_url);
    lit "show=Klassik, Pop et cetera" ].

(** 7. Schreibe Metadaten fuer ffmpeg. *)
Definition write_ffmetadata (temp_metadata_filepath : pystr) (m : Metadata)
    (episode_url : pystr) : prog unit :=
  try_except
    (call (write_text_file temp_metadata_filepath
             (str_join [LF] (ffmetadata_content m episode_url))))
    (except_IOError (fun _ => sys_exit 1)).

(** 8. Tagge mit ffmpeg. *)
Definition tag_episode
    (temp_download_path_m4a temp_metadata_filepath
       temp_tagged_output_path_m4a : pystr) : prog unit :=
  let ffmpeg_args :=
    [ lit "-i"; temp_download_path_m4a;
      lit "-i"; temp_metadata_filepath;
      lit "-map_metadata"; lit "1";
      lit "-map"; lit "0:a";
      lit "-codec"; lit "copy";
      lit "-y";
      temp_tagged_output_path_m4a ] in
  r <- run_external_command FFMPEG_EXECUTABLE ffmpeg_args None ;;
  let success := fst r in
  failed <- or_else (negb success)
              (present <- perform (os_path_exists temp_tagged_output_path_m4a) ;;
               Ret (negb present)) ;;
  if failed : bool then sys_exit 1 else Ret tt.

(** 9. Verschiebe die fertige, getaggte Datei ins Zielverzeichnis. *)
Definition move_to_target (temp_tagged_output_path_m4a target : pystr)
  : prog unit :=
  try_except
    (call (shutil_move temp_tagged_output_path_m4a target))
    (except_Exception (fun _ => sys_exit 1)).

(** The body of the [with] block, steps 1 to 9. *)
Definition pipeline (environ : option pystr) (temp_dir : pystr) : prog unit :=
  main_page_html <- load_main_page ;;
  relative_episode_url <- find_episode_link main_page_html ;;
  let episode_url := resolve_episode_url relative_episode_url in
  soup_episode <- load_episode_page episode_url ;;
  m <- try_except (extract_metadata soup_episode)
         (except_Exception (fun _ => sys_exit 1)) ;;
  let target :=
    final_filepath_in_target_dir environ
      (meta_iso_date_str m) (meta_episode_title m) in
  (** 5. Pruefe, ob Zieldatei bereits existiert. *)
  already <- perform (os_path_exists target) ;;
  (if already : bool then sys_exit 0 else Ret tt) ;;
  let temp_download_path_m4a :=
    os_path_join temp_dir (lit "downloaded_audio_temp.m4a") in
  let temp_metadata_filepath := os_path_join temp_dir (lit "metadata.txt") in
  let temp_tagged_output_path_m4a :=
    os_path_join temp_dir (lit "tagged_audio_temp.m4a") in
  download_episode temp_download_path_m4a episode_url ;;
  write_ffmetadata temp_metadata_filepath m episode_url ;;
  tag_episode temp_download_path_m4a temp_metadata_filepath
    temp_tagged_output_path_m4a ;;
  move_to_target temp_tagged_output_path_m4a target.

Definition main (environ : option pystr) : prog unit :=
  try_except (call (os_makedirs (TARGET_DIR_CONTAINER environ)))
    (except_Exception (fun _ => sys_exit 1)) ;;
  with_TemporaryDirectory (lit "podcast_dl_") (pipeline environ) ;;
  sys_exit 0.
End Script.

(** ** A small environment to run the script in

    A parser that scans the markup for the opening of an element, and a
    world of a few pages and files: enough to evaluate the script on
    concrete pages. *)

Definition find_after (needle s : pystr) : option pystr :=
  re_search (re_lit needle (fun rest => Some rest)) s.

Fixpoint take_until (stop : N) (s : pystr) : pystr :=
  match s with
  | [] => []
  | c :: s' => if c =? stop then [] else c :: take_until stop s'
  end.

#[local] Instance ScanDom : Dom :=
  {| Soup := pystr;
     Tag := pystr;
     BeautifulSoup := fun markup => markup;
     soup_find := fun soup name cls =>
       match cls with
       | Some c =>
           find_after (lit "<" ++ name ++ lit " class=" ++ [DQUOTE] ++ c ++ [DQUOTE]) soup
       | None => find_after (lit "<" ++ name) soup
       end;
     tag_find_with_href := fun tag name =>
       match find_after (lit "<" ++ name ++ lit " href=") tag with
       | Some rest => Some (lit " href=" ++ rest)
       | None => None
       end;
     tag_get := fun tag attr =>
       match find_after (lit " " ++ attr ++ lit "=" ++ [DQUOTE]) tag with
       | Some rest => Some (take_until DQUOTE rest)
       | None => None
       end;
     tag_text := fun tag =>
       match find_after (lit ">") tag with
       | Some rest => take_until 60 rest
       | None => []
       end |}.

Record World : Type :=
  { www : list (pystr * pystr);
    files : list pystr;
    today : date;
    tools_work : bool }.

Definition lookup (key : pystr) (table : list (pystr * pystr)) : option pystr :=
  match find (fun kv => pystr_eqb key (fst kv)) table with
  | Some kv => Some (snd kv)
  | None => None
  end.

Definition with_files (w : World) (fs : list pystr) : World :=
  {| www := www w; files := fs; today := today w; tools_work := tools_work w |}.

(** Where a tool of the script writes: after [--output] when that option
    is given, else the last argument. *)
Fixpoint output_of (command : list pystr) : pystr :=
  match command with
  | [] => []
  | [a] => a
  | a :: ((b :: _) as rest) =>
      if pystr_eqb a (lit "--output") then b else output_of rest
  end.

Definition world_handler : handler World :=
  fun R e =>
    match e in Eff R return World -> R * World with
    | os_makedirs _ => fun w => (inr tt, w)
    | tempfile_mkdtemp prefix => fun w => (inr (lit "/tmp/" ++ prefix ++ lit "0"), w)
    | tempfile_cleanup dir =>
        fun w => (tt, with_files w (filter (fun f => negb (startswith f dir)) (files w)))
    | requests_get url _ =>
        fun w =>
          match lookup url (www w) with
          | Some html => (inr {| status_code := 200; text := html |}, w)
          | None => (inl (RequestException (lit "ConnectionError")), w)
          end
    | datetime_now => fun w => (today w, w)
    | os_path_exists p => fun w => (existsb (pystr_eqb p) (files w), w)
    | subprocess_run command _ =>
        fun w =>
          if tools_work w
          then (inr {| returncode := 0; stdout := []; stderr := [] |},
                with_files w (output_of command :: files w))
          else (inr {| returncode := 1; stdout := []; stderr := lit "failed" |}, w)
    | write_text_file p _ => fun w => (inr tt, with_files w (p :: files w))
    | shutil_move src dst =>
        fun w =>
          if existsb (pystr_eqb src) (files w)
          then (inr tt,
                with_files w
                  (dst :: filter (fun f => negb (pystr_eqb f src)) (files w)))
          else (inl (FileNotFoundError src), w)
    end.

(** The pages of the end-to-end scenario: a listing with one teaser and
    the episode it links to. *)
Definition listing_page : pystr :=
  lit "<article class=" ++ [DQUOTE] ++ lit "b-article-teaser" ++ [DQUOTE]
  ++ lit "><a href=" ++ [DQUOTE] ++ lit "/a/b-100.html" ++ [DQUOTE] ++ lit ">x</a></article>".

Definition episode_page : pystr :=
  lit "<span class=" ++ [DQUOTE] ++ lit "headline-kicker" ++ [DQUOTE]
  ++ lit ">Klassik heute</span><time>01.01.2023</time>".

Definition scenario (published : list pystr) (tools : bool) : World :=
  {| www := [ (MAIN_PAGE_URL, listing_page);
              (BASE_URL ++ lit "/a/b-100.html", episode_page) ];
     files := published;
     today := {| year := 2026; month := 11; day := 4 |};
     tools_work := tools |}.

Definition scenario_target : pystr := lit "/mnt/podcasts/2023-01-01 Klassik heute.m4a".




(** ** Notions used to state the properties *)

(** Neither end of the string is whitespace that the trimming would remove. *)
Definition edges_kept (s : pystr) : bool :=
  match s with
  | [] => true
  | c :: _ => negb (trimmable c) && negb (trimmable (last s c))
  end.

(** Modelled from the spec: the fixed reverse mapping of the descriptor
    escaping, which the script does not contain (the tagging tool reads the
    descriptor). A backslash and the character after it stand for a
    newline (n), a carriage return (r), or that character itself. *)
Fixpoint unescape_ffmetadata (s : pystr) : pystr :=
  match s with
  | [] => []
  | c :: s' =>
      if c =? BACKSLASH then
        match s' with
        | [] => [c]
        | d :: s'' =>
            (if d =? 110 then LF else if d =? 114 then CR else d)
              :: unescape_ffmetadata s''
        end
      else c :: unescape_ffmetadata s'
  end.

(** What the four replacements do to one character. *)
Definition escape_char (c : N) : pystr :=
  if c =? BACKSLASH then lit "\\"
  else if c =? LF then lit "\n"
  else if c =? CR then lit "\r"
  else if c =? EQUALS then lit "\="
  else [c].



(** The answer to the first existence check of a run, which in [main] is
    the check of the target file, and the events after that check. *)
Fixpoint first_exists (tr : list event) : option (pystr * bool) :=
  match tr with
  | [] => None
  | EvExists p b :: _ => Some (p, b)
  | _ :: tr' => first_exists tr'
  end.

Fixpoint after_first_exists (tr : list event) : list event :=
  match tr with
  | [] => []
  | EvExists _ _ :: tr' => tr'
  | _ :: tr' => after_first_exists tr'
  end.

Definition is_request (e : event) : bool :=
  match e with EvGet _ _ _ => true | _ => false end.

Definition is_tool_call (e : event) : bool :=
  match e with EvRun _ _ _ => true | _ => false end.

Definition is_file_write (e : event) : bool :=
  match e with EvWrite _ _ _ | EvMove _ _ _ => true | _ => false end.

Definition is_move (e : event) : bool :=
  match e with EvMove _ _ _ => true | _ => false end.

(** The tool ran to completion with exit status zero. *)
Definition tool_succeeded (r : exception + CompletedProcess) : bool :=
  match r with
  | inr p => (returncode p =? 0)%Z
  | inl _ => false
  end.

(** A tool stage of the run failed: a tool did not complete with status
    zero, or the existence check that follows a tool call answered no. *)
Fixpoint tool_stage_failed (tr : list event) : bool :=
  match tr with
  | [] => false
  | EvRun _ _ r :: tr' =>
      negb (tool_succeeded r)
      || match tr' with
         | EvExists _ false :: _ => true
         | _ => false
         end
      || tool_stage_failed tr'
  | _ :: tr' => tool_stage_failed tr'
  end.

(** Every move of the run goes to a path that an earlier existence check of
    the same run found absent. [absent] collects those paths. *)
Fixpoint moves_guarded (absent : list pystr) (tr : list event) : Prop :=
  match tr with
  | [] => True
  | EvExists p false :: tr' => moves_guarded (p :: absent) tr'
  | EvMove _ dst _ :: tr' => In dst absent /\ moves_guarded absent tr'
  | _ :: tr' => moves_guarded absent tr'
  end.

(** No file created by the script itself is created at [target]. *)
Fixpoint writes_avoid (target : pystr) (tr : list event) : Prop :=
  match tr with
  | [] => True
  | EvWrite p _ _ :: tr' => p <> target /\ writes_avoid target tr'
  | _ :: tr' => writes_avoid target tr'
  end.

(** A digit of ASCII, and the pairs of them that the day and the month
    alternatives of [strptime] accept. *)
Definition ascii_digit (c : N) : bool := in_range 48 57 c.




(** ** Further notions: file names, the descriptor, runs *)

(** Two whitespace characters in a row somewhere in the string. *)
Fixpoint adjacent_whitespace (s : pystr) : bool :=
  match s with
  | [] => false
  | c :: s' =>
      match s' with
      | [] => false
      | c2 :: _ => (py_isspace c && py_isspace c2) || adjacent_whitespace s'
      end
  end.

(** One of the four characters the descriptor escaping rewrites. *)
Definition escaped_char (c : N) : bool :=
  (c =? BACKSLASH) || (c =? LF) || (c =? CR) || (c =? EQUALS).

(** The opening of a teaser and of an anchor, as the pattern of step 2
    spells them. *)
Definition teaser_opening : pystr :=
  lit "<article class=" ++ [DQUOTE] ++ lit "b-article-teaser".

Definition anchor_opening : pystr := lit "<a href=" ++ [DQUOTE].

(** The request did not give a page: it raised, or the status is one that
    [raise_for_status] raises for. *)
Definition request_failed (r : exception + Response) : bool :=
  match r with
  | inl _ => true
  | inr response =>
      ((400 <=? status_code response) && (status_code response <? 600))%Z
  end.

Definition is_failed_request (e : event) : bool :=
  match e with
  | EvGet _ _ r => request_failed r
  | _ => false
  end.

Definition is_cleanup (e : event) : bool :=
  match e with EvCleanup _ => true | _ => false end.

Definition is_successful_move (e : event) : bool :=
  match e with EvMove _ _ (inr _) => true | _ => false end.

(** The first existence check of the run answered yes. *)
Definition target_present (tr : list event) : bool :=
  match first_exists tr with
  | Some (_, true) => true
  | _ => false
  end.

(** The temporary directory the run created, the path its first existence
    check looked at, and the URL of its last page request. *)
Fixpoint created_dir (tr : list event) : option pystr :=
  match tr with
  | [] => None
  | EvMkdtemp _ (inr d) :: _ => Some d
  | _ :: tr' => created_dir tr'
  end.

Definition checked_path (tr : list event) : pystr :=
  match first_exists tr with
  | Some (p, _) => p
  | None => []
  end.

Fixpoint last_request_url (tr : list event) : pystr :=
  match tr with
  | [] => []
  | EvGet url _ _ :: tr' =>
      if existsb is_request tr' then last_request_url tr' else url
  | _ :: tr' => last_request_url tr'
  end.

(** The tool calls, writes and moves of a run, in their order. *)
Definition work (tr : list event) : list event :=
  filter (fun e => is_tool_call e || is_file_write e) tr.

(** The work of a run is a beginning of: download to [dl] from [url], write
    the descriptor [md], tag [dl] with [md] into [tagged], move [tagged] to
    [target]. *)
Definition work_in_order (dl md tagged url target : pystr)
    (events : list event) : Prop :=
  match events with
  | [] => True
  | EvRun c1 None _ :: rest1 =>
      c1 = [lit "yt-dlp"; lit "-f"; lit "m4a"; lit "--output"; dl; url]
      /\ match rest1 with
         | [] => True
         | EvWrite p _ _ :: rest2 =>
             p = md
             /\ match rest2 with
                | [] => True
                | EvRun c2 None _ :: rest3 =>
                    c2 = [ lit "ffmpeg"; lit "-i"; dl; lit "-i"; md;
                           lit "-map_metadata"; lit "1"; lit "-map"; lit "0:a";
                           lit "-codec"; lit "copy"; lit "-y"; tagged ]
                    /\ match rest3 with
                       | [] => True
                       | [EvMove src dst _] => src = tagged /\ dst = target
                       | _ => False
                       end
                | _ => False
                end
         | _ => False
         end
  | _ => False
  end.

(** An environment in which nothing can be created: no directory, no page. *)
Definition barren_handler : handler unit :=
  fun R e =>
    match e in Eff R return unit -> R * unit with
    | os_makedirs p => fun w => (inl (OSError (lit "Read-only file system")), w)
    | tempfile_mkdtemp _ => fun w => (inl (OSError (lit "No space left")), w)
    | tempfile_cleanup _ => fun w => (tt, w)
    | requests_get _ _ => fun w => (inl (RequestException (lit "ConnectionError")), w)
    | datetime_now => fun w => ({| year := 2026; month := 11; day := 4 |}, w)
    | os_path_exists _ => fun w => (false, w)
    | subprocess_run c _ => fun w => (inl (FileNotFoundError (hd [] c)), w)
    | write_text_file _ _ => fun w => (inl (OSError (lit "Read-only file system")), w)
    | shutil_move _ _ => fun w => (inl (OSError (lit "Read-only file system")), w)
    end.

(** A world whose pages cannot be reached. *)
Definition offline : World :=
  {| www := [];
     files := [];
     today := {| year := 2026; month := 11; day := 4 |};
     tools_work := true |}.

(** Two digits, a dot, two digits, a dot, four digits. *)
Definition date_shaped (m : pystr) : bool :=
  match m with
  | [d1; d2; p; m1; m2; q; y1; y2; y3; y4] =>
      is_decimal d1 && is_decimal d2 && (p =? DOT)
      && is_decimal m1 && is_decimal m2 && (q =? DOT)
      && is_decimal y1 && is_decimal y2 && is_decimal y3 && is_decimal y4
  | _ => false
  end.

Definition not_quote (c : N) : bool := negb (c =? DQUOTE).

(** The pattern of the date at the head of a text. *)
Definition date_at_head (s : pystr) : option pystr :=
  re_group
    (fun k =>
       re_repeat 2 is_decimal
         (re_lit [DOT]
            (re_repeat 2 is_decimal
               (re_lit [DOT] (re_repeat 4 is_decimal k)))))
    (fun group1 _ => Some group1) s.

(** The text [run_external_command] returns beside its flag. *)
Definition command_text (executable : pystr)
    (a : exception + CompletedProcess) : pystr :=
  match a with
  | inr p =>
      if (returncode p =? 0)%Z then strip (stdout p) else strip (stderr p)
  | inl (CalledProcessError _ _ e_stderr) => strip e_stderr
  | inl (FileNotFoundError _) => executable ++ lit " not found."
  | inl e => exception_str e
  end.

Definition default_dir (d : option pystr) : pystr :=
  match d with
  | Some p => p
  | None => []
  end.

(** The last page request of the run failed. *)
Fixpoint last_request_failed (tr : list event) : bool :=
  match tr with
  | [] => false
  | EvGet _ _ r :: tr' =>
      if existsb is_request tr' then last_request_failed tr'
      else request_failed r
  | _ :: tr' => last_request_failed tr'
  end.

Definition is_failed_write (e : event) : bool :=
  match e with
  | EvWrite _ _ (inl _) | EvMove _ _ (inl _) => true
  | _ => false
  end.

(** After a write or a move that failed, the run calls no tool and writes
    and moves nothing more. *)
Fixpoint stops_at_failed_write (tr : list event) : bool :=
  match tr with
  | [] => true
  | e :: tr' =>
      if is_failed_write e
      then forallb (fun e' => negb (is_tool_call e' || is_file_write e')) tr'
      else stops_at_failed_write tr'
  end.

(** The descriptor text the run wrote, if it wrote one. *)
Fixpoint written_descriptor (tr : list event) : option pystr :=
  match tr with
  | [] => None
  | EvWrite _ content _ :: _ => Some content
  | _ :: tr' => written_descriptor tr'
  end.

(** The world of the scenario on a disk on which no file can be written. *)
Definition full_disk_handler : handler World :=
  fun R e =>
    match e in Eff R return World -> R * World with
    | os_makedirs p => world_handler _ (os_makedirs p)
    | tempfile_mkdtemp p => world_handler _ (tempfile_mkdtemp p)
    | tempfile_cleanup p => world_handler _ (tempfile_cleanup p)
    | requests_get u t => world_handler _ (requests_get u t)
    | datetime_now => world_handler _ datetime_now
    | os_path_exists p => world_handler _ (os_path_exists p)
    | subprocess_run c d => world_handler _ (subprocess_run c d)
    | write_text_file _ _ =>
        fun w => (inl (OSError (lit "No space left on device")), w)
    | shutil_move s d => world_handler _ (shutil_move s d)
    end.

(** * Properties *)

(** *** Lemmas on the string functions *)

Lemma replace_char (a : N) (new s : pystr) :
  str_replace [a] new s = flat_map (fun c => if c =? a then new else [c]) s.
Proof.
  unfold str_replace.
  induction s as [|c s IH]; simpl; [reflexivity|].
  rewrite (N.eqb_sym a c).
  destruct (c =? a); simpl; rewrite IH; reflexivity.
Qed.

Lemma sanitize_as_map (s : pystr) :
  sanitize_filename_component s = strip (map scrub s).
Proof.
  unfold sanitize_filename_component. f_equal.
  rewrite !replace_char. unfold re_sub_class.
  induction s as [|c s IH]; simpl; [reflexivity|].
  rewrite !flat_map_app, IH. clear IH.
  unfold scrub, forbidden.
  destruct (invalid_filename_char c) eqn:E; simpl.
  - reflexivity.
  - destruct (c =? LF) eqn:E1; simpl; [reflexivity|].
    destruct (c =? CR) eqn:E2; simpl; reflexivity.
Qed.

Lemma scrub_clean (c : N) : forbidden (scrub c) = false.
Proof.
  unfold scrub. destruct (forbidden c) eqn:E; [reflexivity | exact E].
Qed.

Lemma scrub_fixed (c : N) : forbidden c = false -> scrub c = c.
Proof. unfold scrub. intros ->. reflexivity. Qed.

Lemma scrub_space (c : N) : py_isspace (scrub c) = trimmable c.
Proof.
  unfold scrub, trimmable. destruct (forbidden c); simpl.
  - now rewrite andb_false_r.
  - now rewrite andb_true_r.
Qed.

Lemma lstrip_incl (s : pystr) (c : N) : In c (lstrip s) -> In c s.
Proof.
  induction s as [|a s IH]; simpl; [tauto|].
  destruct (py_isspace a); simpl; tauto.
Qed.

Lemma rstrip_incl (s : pystr) (c : N) : In c (rstrip s) -> In c s.
Proof.
  induction s as [|a s IH]; simpl; [tauto|].
  destruct (rstrip s) as [|b r].
  - destruct (py_isspace a); simpl; tauto.
  - simpl in *. tauto.
Qed.

Lemma strip_incl (s : pystr) (c : N) : In c (strip s) -> In c s.
Proof. intros H. apply lstrip_incl, rstrip_incl, H. Qed.

Lemma lstrip_length (s : pystr) : (length (lstrip s) <= length s)%nat.
Proof.
  induction s as [|a s IH]; simpl; [lia|].
  destruct (py_isspace a); simpl; lia.
Qed.

Lemma rstrip_length (s : pystr) : (length (rstrip s) <= length s)%nat.
Proof.
  induction s as [|a s IH]; simpl; [lia|].
  destruct (rstrip s); [destruct (py_isspace a)|]; simpl in *; lia.
Qed.

Lemma strip_length (s : pystr) : (length (strip s) <= length s)%nat.
Proof.
  unfold strip. pose proof (rstrip_length (lstrip s)).
  pose proof (lstrip_length s). lia.
Qed.

Lemma rstrip_idem (s : pystr) : rstrip (rstrip s) = rstrip s.
Proof.
  induction s as [|a s IH]; simpl; [reflexivity|].
  destruct (rstrip s) as [|b r] eqn:E.
  - destruct (py_isspace a) eqn:Ea; simpl; [reflexivity|].
    now rewrite Ea.
  - change (rstrip (a :: b :: r)) with
      (match rstrip (b :: r) with
       | [] => if py_isspace a then [] else [a]
       | x => a :: x
       end).
    rewrite IH. reflexivity.
Qed.

Lemma lstrip_fixed_rstrip (s : pystr) :
  lstrip s = s -> lstrip (rstrip s) = rstrip s.
Proof.
  destruct s as [|a s]; simpl; [reflexivity|].
  destruct (py_isspace a) eqn:Ea.
  - intros H. pose proof (lstrip_length s) as L. rewrite H in L.
    simpl in L. lia.
  - intros _. destruct (rstrip s); simpl; now rewrite Ea.
Qed.

Lemma lstrip_idem (s : pystr) : lstrip (lstrip s) = lstrip s.
Proof.
  induction s as [|a s IH]; simpl; [reflexivity|].
  destruct (py_isspace a) eqn:Ea; [exact IH|].
  simpl. now rewrite Ea.
Qed.

Lemma strip_idem (s : pystr) : strip (strip s) = strip s.
Proof.
  unfold strip.
  rewrite (lstrip_fixed_rstrip (lstrip s) (lstrip_idem s)).
  apply rstrip_idem.
Qed.

Lemma map_fixed (f : N -> N) (s : pystr) :
  (forall c, In c s -> f c = c) -> map f s = s.
Proof.
  induction s as [|a s IH]; simpl; intros H; [reflexivity|].
  rewrite H by auto. rewrite IH by auto. reflexivity.
Qed.

Lemma sanitize_clean (s : pystr) (c : N) :
  In c (sanitize_filename_component s) -> forbidden c = false.
Proof.
  rewrite sanitize_as_map. intros H.
  apply strip_incl, in_map_iff in H. destruct H as [a [<- _]].
  apply scrub_clean.
Qed.

(** *** The sanitizer *)

Lemma rstrip_fixed (s : pystr) (d : N) :
  s <> [] -> py_isspace (last s d) = false -> rstrip s = s.
Proof.
  induction s as [|a s IH]; [congruence|].
  intros _ H. destruct s as [|b s].
  - simpl in *. now rewrite H.
  - change (last (a :: b :: s) d) with (last (b :: s) d) in H.
    change (rstrip (a :: b :: s)) with
      (match rstrip (b :: s) with
       | [] => if py_isspace a then [] else [a]
       | x => a :: x
       end).
    rewrite IH by (congruence || assumption). reflexivity.
Qed.

Lemma last_map (f : N -> N) (s : pystr) (d : N) :
  last (map f s) (f d) = f (last s d).
Proof.
  induction s as [|a s IH]; [reflexivity|].
  destruct s as [|b s]; [reflexivity|]. exact IH.
Qed.

Lemma strip_edges_kept (s : pystr) :
  edges_kept s = true -> strip (map scrub s) = map scrub s.
Proof.
  destruct s as [|c s]; [reflexivity|].
  unfold edges_kept. rewrite andb_true_iff, !negb_true_iff.
  intros [Hhd Hlast]. unfold strip.
  assert (L : lstrip (map scrub (c :: s)) = map scrub (c :: s)).
  { simpl. now rewrite scrub_space, Hhd. }
  rewrite L. apply (rstrip_fixed _ (scrub c)).
  - simpl. congruence.
  - rewrite last_map, scrub_space. exact Hlast.
Qed.

(** C4, as amended. The result of the sanitizer holds none of the
    characters backslash, slash, star, question mark, colon, double quote,
    less-than, greater-than, vertical bar, newline and carriage return.
    Each of them is replaced by exactly one underscore and every other
    character is kept, so the replacement keeps the length; the result is
    that string with the whitespace at its ends trimmed. It is never
    longer than the input, and as long as the input when the input neither
    starts nor ends with whitespace that the trimming removes. *)
Theorem sanitize_replaces_then_trims (s : pystr) :
  (forall c, In c (sanitize_filename_component s) -> forbidden c = false)
  /\ sanitize_filename_component s = strip (map scrub s)
  /\ length (map scrub s) = length s
  /\ (length (sanitize_filename_component s) <= length s)%nat
  /\ (edges_kept s = true ->
      length (sanitize_filename_component s) = length s).
Proof.
  split; [apply sanitize_clean|].
  split; [apply sanitize_as_map|].
  split; [apply length_map|].
  rewrite sanitize_as_map. split.
  - pose proof (strip_length (map scrub s)) as H.
    now rewrite length_map in H.
  - intros H. rewrite strip_edges_kept by exact H. apply length_map.
Qed.

Lemma sanitize_replaces_then_trims_witness :
  (forall c, In c (sanitize_filename_component (lit "a/b:c")) ->
             forbidden c = false)
  /\ length (sanitize_filename_component (lit "a/b:c")) = length (lit "a/b:c").
Proof.
  pose proof (sanitize_replaces_then_trims (lit "a/b:c")) as H.
  split.
  - exact (proj1 H).
  - apply (proj2 (proj2 (proj2 (proj2 H)))). vm_compute. reflexivity.
Defined.

(** C4, as stated, fails: a string that holds a forbidden character after a
    leading space comes back one character shorter. *)
Lemma sanitize_length_not_preserved :
  ~ (forall s : pystr,
        (exists c, In c s /\ forbidden c = true) ->
        (forall c, In c (sanitize_filename_component s) -> forbidden c = false)
        /\ length (sanitize_filename_component s) = length s).
Proof.
  intros H.
  destruct (H (lit " /")) as [_ L].
  - exists SLASH. split; [vm_compute; tauto | reflexivity].
  - vm_compute in L. discriminate.
Qed.

(** C10. The sanitizer is idempotent. *)
Theorem sanitize_idempotent (s : pystr) :
  sanitize_filename_component (sanitize_filename_component s)
  = sanitize_filename_component s.
Proof.
  rewrite (sanitize_as_map (sanitize_filename_component s)).
  rewrite map_fixed.
  - rewrite sanitize_as_map. apply strip_idem.
  - intros c H. apply scrub_fixed. apply (sanitize_clean s c H).
Qed.


(** *** The descriptor escaping *)

Lemma flat_map_flat_map (f g : N -> pystr) (s : pystr) :
  flat_map g (flat_map f s) = flat_map (fun c => flat_map g (f c)) s.
Proof.
  induction s as [|c s IH]; simpl; [reflexivity|].
  now rewrite flat_map_app, IH.
Qed.

Lemma escape_as_flat_map (s : pystr) :
  escape_for_ffmetadata (Some s) = flat_map escape_char s.
Proof.
  unfold escape_for_ffmetadata. rewrite !replace_char, !flat_map_flat_map.
  apply flat_map_ext. intros c. unfold escape_char.
  destruct (c =? BACKSLASH) eqn:E1.
  { apply N.eqb_eq in E1. subst c. reflexivity. }
  cbn [flat_map]. rewrite app_nil_r.
  destruct (c =? LF) eqn:E2.
  { apply N.eqb_eq in E2. subst c. reflexivity. }
  cbn [flat_map]. rewrite app_nil_r.
  destruct (c =? CR) eqn:E3.
  { apply N.eqb_eq in E3. subst c. reflexivity. }
  cbn [flat_map]. rewrite app_nil_r.
  destruct (c =? EQUALS) eqn:E4; reflexivity.
Qed.

Lemma unescape_escape_char (c : N) (rest : pystr) :
  unescape_ffmetadata (escape_char c ++ rest) = c :: unescape_ffmetadata rest.
Proof.
  unfold escape_char.
  destruct (c =? BACKSLASH) eqn:E1.
  { apply N.eqb_eq in E1. subst c. reflexivity. }
  destruct (c =? LF) eqn:E2.
  { apply N.eqb_eq in E2. subst c. reflexivity. }
  destruct (c =? CR) eqn:E3.
  { apply N.eqb_eq in E3. subst c. reflexivity. }
  destruct (c =? EQUALS) eqn:E4.
  { apply N.eqb_eq in E4. subst c. reflexivity. }
  simpl. now rewrite E1.
Qed.

Lemma unescape_escape (s : pystr) :
  unescape_ffmetadata (escape_for_ffmetadata (Some s)) = s.
Proof.
  rewrite escape_as_flat_map.
  induction s as [|c s IH]; [reflexivity|].
  cbn [flat_map]. now rewrite unescape_escape_char, IH.
Qed.

(** C5. The escaping of a descriptor value is the four replacements
    backslash, newline, carriage return, equals sign, in that order; the
    reverse mapping gives the original back from the escaped value, so that
    no two strings have the same escaped value. The title with an equals
    sign, a backslash and a newline is one instance. *)
Theorem escape_for_ffmetadata_invertible (s : pystr) :
  escape_for_ffmetadata (Some s)
  = str_replace (lit "=") (lit "\=")
      (str_replace [CR] (lit "\r")
         (str_replace [LF] (lit "\n")
            (str_replace (lit "\") (lit "\\") s)))
  /\ unescape_ffmetadata (escape_for_ffmetadata (Some s)) = s
  /\ (forall t : pystr,
         escape_for_ffmetadata (Some s) = escape_for_ffmetadata (Some t) ->
         s = t)
  /\ escape_for_ffmetadata (Some (lit "a=b\c" ++ [LF] ++ lit "d"))
     = lit "a\=b\\c\nd".
Proof.
  split; [reflexivity|].
  split; [apply unescape_escape|].
  split; [|reflexivity].
  intros t H.
  rewrite <- (unescape_escape s), <- (unescape_escape t). now rewrite H.
Qed.

Lemma escape_for_ffmetadata_invertible_witness :
  escape_for_ffmetadata (Some (lit "a=b")) = escape_for_ffmetadata (Some (lit "a=b"))
  /\ lit "a=b" = lit "a=b".
Proof.
  split; [reflexivity|].
  apply (proj1 (proj2 (proj2 (escape_for_ffmetadata_invertible (lit "a=b"))))).
  reflexivity.
Defined.

(** The replacements undone one after the other in the opposite order do not
    give the original back: a backslash before the letter n is taken for
    an escaped newline. *)
Example sequential_unescape_differs :
  let s := lit "\n" in
  str_replace (lit "\\") (lit "\")
    (str_replace (lit "\n") [LF]
       (str_replace (lit "\r") [CR]
          (str_replace (lit "\=") (lit "=") (escape_for_ffmetadata (Some s)))))
  <> s.
Proof. vm_compute. discriminate. Qed.

(** *** The episode URL *)

(** C6. An href that starts with a slash is prefixed with the base origin;
    any other href, an absolute URL included, is the episode URL as it
    stands. *)
Theorem resolve_episode_url_cases (href : pystr) :
  (forall rest, href = SLASH :: rest ->
     resolve_episode_url href = lit "https://www.deutschlandfunk.de" ++ href)
  /\ ((forall rest, href <> SLASH :: rest) -> resolve_episode_url href = href)
  /\ resolve_episode_url (lit "/sendung/foo-100.html")
     = lit "https://www.deutschlandfunk.de/sendung/foo-100.html"
  /\ (forall rest, resolve_episode_url (lit "https://" ++ rest)
                   = lit "https://" ++ rest).
Proof.
  unfold resolve_episode_url. change (lit "/") with [SLASH].
  split; [|split; [|split]].
  - intros rest ->. cbn. reflexivity.
  - intros H. destruct href as [|c rest]; [reflexivity|].
    cbn [startswith]. destruct (N.eqb_spec SLASH c) as [<-|Hc]; [|reflexivity].
    exfalso. apply (H rest). reflexivity.
  - reflexivity.
  - intros rest. reflexivity.
Qed.

Lemma resolve_episode_url_cases_witness :
  resolve_episode_url (lit "/a/b-100.html")
  = lit "https://www.deutschlandfunk.de" ++ lit "/a/b-100.html"
  /\ resolve_episode_url (lit "a/b-100.html") = lit "a/b-100.html".
Proof.
  pose proof (resolve_episode_url_cases (lit "/a/b-100.html")) as H1.
  pose proof (resolve_episode_url_cases (lit "a/b-100.html")) as H2.
  split.
  - apply (proj1 H1 (lit "a/b-100.html")). reflexivity.
  - apply (proj1 (proj2 H2)). intros rest. vm_compute. discriminate.
Defined.


(** *** Runs *)

Arguments teaser_link_search : simpl never.
Arguments date_search : simpl never.
Arguments strptime : simpl never.
Arguments strftime : simpl never.
Arguments sanitize_filename_component : simpl never.
Arguments os_path_join : simpl never.
Arguments resolve_episode_url : simpl never.
Arguments final_filepath_in_target_dir : simpl never.
Arguments str_join : simpl never.
Arguments ffmetadata_content : simpl never.
Arguments TARGET_DIR_CONTAINER : simpl never.
Arguments strip : simpl never.
Arguments re_sub_whitespace_runs : simpl never.
Arguments exception_str : simpl never.
Arguments Z.eqb : simpl never.
Arguments Z.leb : simpl never.
Arguments Z.ltb : simpl never.
Arguments app : simpl never.

(** The scrutinee of the innermost [match] of a term. *)
Ltac innermost x :=
  lazymatch x with
  | context [match ?y with _ => _ end] => innermost y
  | _ => destruct x eqn:?
  end.

(** Follow a run through every answer the environment [h] can give. *)
Ltac explore h :=
  repeat (cbn;
    match goal with
    | |- (_, _) = (_, _) -> _ =>
        let H := fresh in intros H; inversion H; clear H; subst
    | |- context [h ?R ?e ?w] =>
        let r := fresh "r" in
        let w' := fresh "w" in
        destruct (h R e w) as [r w'] eqn:?; cbn [fst snd] in *
    | |- context [match ?x with _ => _ end] => innermost x
    end).

Ltac unfold_script :=
  unfold main, with_TemporaryDirectory, pipeline, load_main_page,
    find_episode_link, load_episode_page, extract_metadata, extract_iso_date,
    download_episode, write_ffmetadata, tag_episode, move_to_target,
    run_external_command, subprocess_run_check, current_iso_date,
    raise_for_status, or_else, call, perform, sys_exit, raise_or_return,
    except_Exception, except_RequestException, except_ValueError,
    except_IOError.

(** *** The link to the newest episode *)







(** The pattern on the listing of the scenario, and on a teaser whose first
    anchor has an attribute before its href: the pattern takes the first
    anchor that opens with the href. *)
Example teaser_link_search_scenario :
  teaser_link_search listing_page = Some (lit "/a/b-100.html").
Proof. reflexivity. Qed.

Example teaser_link_search_other_attribute :
  teaser_link_search
    (lit "<article class=" ++ [DQUOTE] ++ lit "b-article-teaser" ++ [DQUOTE]
     ++ lit "><a id=" ++ [DQUOTE] ++ lit "x" ++ [DQUOTE] ++ lit " href="
     ++ [DQUOTE] ++ lit "/first" ++ [DQUOTE] ++ lit "></a><a href="
     ++ [DQUOTE] ++ lit "/second" ++ [DQUOTE] ++ lit "></a></article>")
  = Some (lit "/second").
Proof. reflexivity. Qed.


(** *** The metadata of the episode *)





(** *** Dates written in ASCII digits *)

Lemma ascii_digit_bounds (c : N) : ascii_digit c = true -> 48 <= c <= 57.
Proof.
  unfold ascii_digit, in_range. rewrite andb_true_iff, !N.leb_le. tauto.
Qed.
















Lemma ascii_digit_cases (c : N) :
  ascii_digit c = true ->
  c = 48 \/ c = 49 \/ c = 50 \/ c = 51 \/ c = 52 \/ c = 53 \/ c = 54
  \/ c = 55 \/ c = 56 \/ c = 57.
Proof. intros H. apply ascii_digit_bounds in H. lia. Qed.

Ltac each_digit c H :=
  apply ascii_digit_cases in H;
  destruct H as [H|[H|[H|[H|[H|[H|[H|[H|[H|H]]]]]]]]]; subst c.






(** Only the first match of the pattern is parsed: a date after a match
    that is no date is not looked at. *)
Example date_after_a_failed_match :
  date_search (lit "99.99.9999 15.03.2024") = Some (lit "99.99.9999")
  /\ strptime (lit "99.99.9999")
     = inl (ValueError (lit "time data does not match format")).
Proof. split; reflexivity. Qed.





(** *** The tool stages *)

Lemma last_app_nonempty (a b : pystr) (d : N) :
  b <> [] -> last (a ++ b) d = last b d.
Proof.
  intros H. induction a as [|x a IH]; [reflexivity|].
  change ((x :: a) ++ b) with (x :: (a ++ b)). rewrite <- IH.
  destruct (a ++ b) eqn:E; [|reflexivity].
  apply app_eq_nil in E. tauto.
Qed.

Lemma os_path_join_last (a b : pystr) (d : N) :
  b <> [] -> last (os_path_join a b) d = last b d.
Proof.
  intros H. unfold os_path_join.
  destruct (startswith b [SLASH]); [reflexivity|].
  destruct a as [|x a]; [reflexivity|].
  destruct (last (x :: a) 0 =? SLASH).
  - now apply last_app_nonempty.
  - rewrite (last_app_nonempty (x :: a) ([SLASH] ++ b)).
    + now apply (last_app_nonempty [SLASH]).
    + discriminate.
Qed.

Lemma metadata_path_not_target (temp_dir : pystr) (environ : option pystr)
    (iso title : pystr) :
  os_path_join temp_dir (lit "metadata.txt")
  <> final_filepath_in_target_dir environ iso title.
Proof.
  intros E. apply (f_equal (fun s => last s 0)) in E.
  unfold final_filepath_in_target_dir, final_filename in E.
  rewrite !os_path_join_last in E.
  - rewrite !app_assoc in E.
    rewrite (last_app_nonempty _ (lit ".m4a")) in E by discriminate.
    vm_compute in E. discriminate.
  - rewrite !app_assoc. intros N. apply app_eq_nil in N.
    destruct N as [_ N]. discriminate.
  - discriminate.
Qed.

(** A tool stage: the tool is run, and the file it was to write is looked
    for only when the tool succeeded. Both stages of the script have this
    shape. *)
Lemma run_tool_stage {W : Type} (h : handler W) (w : W)
    (executable : pystr) (arguments : list pystr) (out : pystr) :
  let a := h _ (subprocess_run (executable :: arguments) None) w in
  let b := h _ (os_path_exists out) (snd a) in
  result
    (run h
       (r <- run_external_command executable arguments None ;;
        failed <- or_else (negb (fst r))
                    (present <- perform (os_path_exists out) ;;
                     Ret (negb present)) ;;
        if failed : bool then sys_exit 1 else Ret tt) w)
  = if tool_succeeded (fst a) && fst b
    then Returned tt
    else Raised (SystemExit 1).
Proof.
  unfold_script. cbn.
  destruct (h _ (subprocess_run (executable :: arguments) None) w)
    as [[x|p] w1]; cbn.
  - destruct x; reflexivity.
  - destruct (returncode p =? 0)%Z; cbn; [|reflexivity].
    destruct (h _ (os_path_exists out) w1) as [[|] w2]; reflexivity.
Qed.

(** C8. The download stage returns exactly when the downloader completed
    with exit status zero and the file it was to write exists afterwards,
    and the tagging stage exactly when the remuxer did and the tagged file
    exists; in every other case the stage leaves with exit status 1. A run
    of [main] in which a tool stage failed ends with exit status 1, and
    nothing is moved to the target in it. *)
Theorem tool_stages_need_status_and_file {D : Dom} {W : Type}
    (h : handler W) (w : W) :
  (forall temp_download_path_m4a episode_url,
     let a :=
       h _ (subprocess_run
              [ lit "yt-dlp"; lit "-f"; lit "m4a"; lit "--output";
                temp_download_path_m4a; episode_url ] None) w in
     let b := h _ (os_path_exists temp_download_path_m4a) (snd a) in
     let r := run h (download_episode temp_download_path_m4a episode_url) w in
     (result r = Returned tt <-> tool_succeeded (fst a) = true /\ fst b = true)
     /\ (result r <> Returned tt -> result r = Raised (SystemExit 1)))
  /\ (forall temp_download_path_m4a temp_metadata_filepath
             temp_tagged_output_path_m4a,
     let a :=
       h _ (subprocess_run
              [ lit "ffmpeg"; lit "-i"; temp_download_path_m4a;
                lit "-i"; temp_metadata_filepath;
                lit "-map_metadata"; lit "1"; lit "-map"; lit "0:a";
                lit "-codec"; lit "copy"; lit "-y";
                temp_tagged_output_path_m4a ] None) w in
     let b := h _ (os_path_exists temp_tagged_output_path_m4a) (snd a) in
     let r :=
       run h (tag_episode temp_download_path_m4a temp_metadata_filepath
                temp_tagged_output_path_m4a) w in
     (result r = Returned tt <-> tool_succeeded (fst a) = true /\ fst b = true)
     /\ (result r <> Returned tt -> result r = Raised (SystemExit 1)))
  /\ (forall environ,
        tool_stage_failed (trace (run h (main environ) w)) = true ->
        exit_status (result (run h (main environ) w)) = 1%Z
        /\ forallb (fun e => negb (is_move e)) (trace (run h (main environ) w))
           = true).
Proof.
  split; [|split].
  - intros dl url a b r. subst r. unfold download_episode.
    rewrite run_tool_stage. unfold YT_DLP_EXECUTABLE, FFMPEG_EXECUTABLE.
    fold a. fold b.
    destruct (tool_succeeded (fst a)), (fst b); cbn;
      (split; [split; intuition congruence | intuition congruence]).
  - intros dl md out a b r. subst r. unfold tag_episode.
    rewrite run_tool_stage. unfold YT_DLP_EXECUTABLE, FFMPEG_EXECUTABLE.
    fold a. fold b.
    destruct (tool_succeeded (fst a)), (fst b); cbn;
      (split; [split; intuition congruence | intuition congruence]).
  - intros environ. unfold_script. unfold episode_link_tag.
    explore h.
    all: cbn; intros; try discriminate; split; reflexivity.
Qed.

(** *** The existence check of the target *)

(** C1. When the existence check of the target file answers yes, the run
    ends with exit status 0; after the check only the temporary directory
    is removed, so that the whole run made its two page requests, called
    no tool and wrote or moved no file. The path checked is the computed
    target path. *)
Theorem existing_target_ends_run {D : Dom} {W : Type}
    (h : handler W) (w : W) (environ : option pystr) (target : pystr) :
  let r := run h (main environ) w in
  first_exists (trace r) = Some (target, true) ->
  result r = Raised (SystemExit 0)
  /\ exit_status (result r) = 0%Z
  /\ (exists temp_dir, after_first_exists (trace r) = [EvCleanup temp_dir])
  /\ forallb (fun e => negb (is_tool_call e || is_file_write e)) (trace r) = true
  /\ length (filter is_request (trace r)) = 2%nat
  /\ (exists iso title, target = final_filepath_in_target_dir environ iso title).
Proof.
  intros r. subst r. unfold_script. unfold episode_link_tag.
  explore h.
  all: cbn; intros E; try discriminate E; injection E as <-.
  all: repeat split; try reflexivity.
  all: try (eexists; reflexivity).
  all: do 2 eexists; reflexivity.
Qed.

(** C2. In every run the only move goes to a path that an existence check
    of the same run found absent before, and that path is the target that
    was checked first; when that check finds the target present, the run
    moves and writes nothing and calls no tool. The one file the script
    writes itself, the descriptor, is never written to the target, and a
    run has at most one move. *)
Theorem target_never_overwritten {D : Dom} {W : Type}
    (h : handler W) (w : W) (environ : option pystr) :
  let r := run h (main environ) w in
  moves_guarded [] (trace r)
  /\ (forall target b, first_exists (trace r) = Some (target, b) ->
        writes_avoid target (trace r)
        /\ (forall src dst x, In (EvMove src dst x) (trace r) ->
              dst = target /\ b = false)
        /\ (b = true ->
            forallb (fun e => negb (is_file_write e || is_tool_call e)) (trace r)
            = true))
  /\ (length (filter is_move (trace r)) <= 1)%nat.
Proof.
  intros r. subst r. unfold_script. unfold episode_link_tag.
  explore h.
  all: cbn; (split; [tauto|]); (split; [|lia]).
  all: intros target b E; try discriminate E; injection E as <- <-.
  all: split; [repeat split; try apply metadata_path_not_target|].
  all: split; [|intros B; try discriminate B; reflexivity].
  all: intros src dst x HIn; cbn in HIn.
  all: repeat (destruct HIn as [HIn|HIn];
               [try discriminate HIn; injection HIn as <- <- <-;
                split; reflexivity|]).
  all: contradiction.
Qed.


(** *** The theorems at the pages of the scenario *)




Lemma tool_stages_need_status_and_file_witness :
  tool_stage_failed (trace (run world_handler (main None) (scenario [] false)))
  = true
  /\ exit_status (result (run world_handler (main None) (scenario [] false)))
     = 1%Z.
Proof.
  split; [vm_compute; reflexivity|].
  apply (proj2 (proj2 (tool_stages_need_status_and_file world_handler
                         (scenario [] false))) None).
  vm_compute. reflexivity.
Defined.

Lemma existing_target_ends_run_witness :
  first_exists
    (trace (run world_handler (main None) (scenario [scenario_target] true)))
  = Some (scenario_target, true)
  /\ exit_status
       (result (run world_handler (main None) (scenario [scenario_target] true)))
     = 0%Z.
Proof.
  split; [vm_compute; reflexivity|].
  apply (existing_target_ends_run world_handler
           (scenario [scenario_target] true) None scenario_target).
  vm_compute. reflexivity.
Defined.

Lemma target_never_overwritten_witness :
  first_exists (trace (run world_handler (main None) (scenario [] true)))
  = Some (scenario_target, false)
  /\ writes_avoid scenario_target
       (trace (run world_handler (main None) (scenario [] true))).
Proof.
  split; [vm_compute; reflexivity|].
  apply (proj1 (proj2 (target_never_overwritten world_handler
                         (scenario [] true) None)) scenario_target false).
  vm_compute. reflexivity.
Defined.

(** The end-to-end scenario: nothing published yet, both tools work. The
    run ends with status 0 and the target directory holds the episode. *)
Example scenario_publishes :
  let r := run world_handler (main None) (scenario [] true) in
  exit_status (result r) = 0%Z /\ files (final r) = [scenario_target].
Proof. vm_compute. split; reflexivity. Qed.

(** A second run in the world the first one left does nothing more. *)
Example scenario_second_run :
  let first := run world_handler (main None) (scenario [] true) in
  let second := run world_handler (main None) (final first) in
  exit_status (result second) = 0%Z
  /\ files (final second) = [scenario_target]
  /\ forallb (fun e => negb (is_tool_call e || is_file_write e)) (trace second)
     = true.
Proof. vm_compute. repeat split; reflexivity. Qed.

(** * Further properties of the script *)

(** *** File names and paths *)

Lemma zero_padded_digits (width : nat) (n c : N) :
  In c (zero_padded width n) -> ascii_digit c = true.
Proof.
  revert n. induction width as [|w IH]; intros n; cbn [zero_padded].
  - intros [].
  - rewrite in_app_iff. intros [H|[<-|[]]]; [exact (IH _ H)|].
    assert (B : n mod 10 < 10) by (apply N.mod_upper_bound; discriminate).
    clear IH. revert B. generalize (n mod 10). intros r B.
    unfold ascii_digit, in_range, ZERO.
    apply andb_true_iff. split; apply N.leb_le; lia.
Qed.

Lemma zero_padded_length (width : nat) (n : N) :
  length (zero_padded width n) = width.
Proof.
  revert n. induction width as [|w IH]; intros n; cbn [zero_padded].
  - reflexivity.
  - rewrite length_app, IH. cbn. lia.
Qed.

Lemma strftime_chars (d : date) (c : N) :
  In c (strftime d) -> ascii_digit c = true \/ c = DASH.
Proof.
  unfold strftime. rewrite !in_app_iff. cbn [In].
  intros [H|[[<-|[]]|[H|[[<-|[]]|H]]]]; auto;
    left; exact (zero_padded_digits _ _ _ H).
Qed.

Lemma strftime_length (d : date) : length (strftime d) = 10%nat.
Proof.
  unfold strftime. rewrite !length_app, !zero_padded_length. reflexivity.
Qed.

Lemma ascii_digit_allowed (c : N) : ascii_digit c = true -> forbidden c = false.
Proof. intros H. each_digit c H; reflexivity. Qed.

Lemma startswith_app (a b : pystr) : startswith (a ++ b) a = true.
Proof.
  induction a as [|x a IH]; [reflexivity|].
  change ((x :: a) ++ b) with (x :: (a ++ b)). cbn [startswith].
  now rewrite N.eqb_refl, IH.
Qed.

Lemma app_inj_length (a a' b b' : pystr) :
  a ++ b = a' ++ b' -> length a = length a' -> a = a' /\ b = b'.
Proof.
  revert a'. induction a as [|x a IH]; intros [|x' a'] E L;
    try discriminate L.
  - split; [reflexivity | exact E].
  - change ((x :: a) ++ b) with (x :: (a ++ b)) in E.
    change ((x' :: a') ++ b') with (x' :: (a' ++ b')) in E.
    injection E as -> E. injection L as L.
    destruct (IH _ E L) as [-> ->]. split; reflexivity.
Qed.

(** X1. The name of the published file holds no path separator and none of
    the other characters the sanitizer replaces, whatever the title of the
    page and whatever the date; it ends with the extension. *)
Theorem final_filename_is_safe (d : date) (title : pystr) :
  forallb (fun c => negb (forbidden c)) (final_filename (strftime d) title)
  = true
  /\ final_filename (strftime d) title
     = (strftime d ++ lit " " ++ sanitize_filename_component title)
       ++ lit ".m4a".
Proof.
  split.
  - apply forallb_forall. intros c H. apply negb_true_iff.
    unfold final_filename in H. rewrite !in_app_iff in H.
    destruct H as [H|[H|[H|H]]].
    + destruct (strftime_chars d c H) as [A| ->];
        [now apply ascii_digit_allowed | reflexivity].
    + destruct H as [<-|[]]. reflexivity.
    + exact (sanitize_clean title c H).
    + cbn in H. destruct H as [<-|[<-|[<-|[<-|[]]]]]; reflexivity.
  - unfold final_filename. now rewrite !app_assoc.
Qed.

(** X2. Two episodes get the same file name only when their ISO dates and
    their sanitized titles are the same, for ISO dates of one length (as
    every date [strftime] writes). *)
Theorem final_filename_injective (iso iso' title title' : pystr) :
  length iso = length iso' ->
  final_filename iso title = final_filename iso' title' ->
  iso = iso'
  /\ sanitize_filename_component title = sanitize_filename_component title'.
Proof.
  unfold final_filename. intros L E.
  destruct (app_inj_length _ _ _ _ E L) as [-> E'].
  split; [reflexivity|].
  apply app_inv_head in E'. now apply app_inv_tail in E'.
Qed.

Lemma final_filename_injective_witness :
  strftime {| year := 2023; month := 1; day := 1 |} = lit "2023-01-01"
  /\ sanitize_filename_component (lit "a/b") = sanitize_filename_component (lit "a:b").
Proof.
  apply (final_filename_injective
           (strftime {| year := 2023; month := 1; day := 1 |}) (lit "2023-01-01")
           (lit "a/b") (lit "a:b")); vm_compute; reflexivity.
Defined.

(** X3. The target path lies in the target directory: since the file name
    starts with the year, joining never drops the directory, and the path
    is the directory, one slash unless the directory is empty or ends with
    one, and the file name. The three working files lie in the same way in
    the temporary directory. *)
Theorem paths_stay_in_their_directory (environ : option pystr) (d : date)
    (title temp_dir : pystr) :
  let dir := TARGET_DIR_CONTAINER environ in
  let name := final_filename (strftime d) title in
  let sep (a : pystr) : pystr :=
    match a with
    | [] => []
    | _ :: _ => if last a 0 =? SLASH then [] else [SLASH]
    end in
  final_filepath_in_target_dir environ (strftime d) title
  = dir ++ sep dir ++ name
  /\ startswith (final_filepath_in_target_dir environ (strftime d) title) dir
     = true
  /\ os_path_join temp_dir (lit "downloaded_audio_temp.m4a")
     = temp_dir ++ sep temp_dir ++ lit "downloaded_audio_temp.m4a"
  /\ os_path_join temp_dir (lit "metadata.txt")
     = temp_dir ++ sep temp_dir ++ lit "metadata.txt"
  /\ os_path_join temp_dir (lit "tagged_audio_temp.m4a")
     = temp_dir ++ sep temp_dir ++ lit "tagged_audio_temp.m4a".
Proof.
  intros dir name sep.
  assert (J : forall a b, startswith b [SLASH] = false ->
                          os_path_join a b = a ++ sep a ++ b).
  { intros a b H. unfold os_path_join. rewrite H.
    destruct a as [|x a]; [reflexivity|].
    unfold sep. destruct (last (x :: a) 0 =? SLASH); reflexivity. }
  assert (N : startswith name [SLASH] = false).
  { unfold name, final_filename, strftime. cbn [zero_padded].
    rewrite <- !app_assoc.
    lazymatch goal with
    | |- startswith ([] ++ [?x] ++ ?r) _ = _ =>
        change (startswith (x :: r) [SLASH] = false)
    end.
    cbn [startswith]. rewrite andb_true_r. apply N.eqb_neq.
    generalize ((year d / 10 / 10 / 10) mod 10). intros r.
    unfold SLASH, ZERO. lia. }
  split; [exact (J dir name N)|].
  split.
  - unfold final_filepath_in_target_dir. fold dir. fold name.
    rewrite (J dir name N). apply startswith_app.
  - repeat split; apply J; reflexivity.
Qed.

(** X4. Resolving an href twice gives what resolving it once gives: a
    resolved URL no longer starts with a slash. *)
Theorem resolve_episode_url_idempotent (href : pystr) :
  resolve_episode_url (resolve_episode_url href) = resolve_episode_url href.
Proof.
  unfold resolve_episode_url.
  destruct (startswith href (lit "/")) eqn:E; [|now rewrite E].
  reflexivity.
Qed.

(** X5. The sanitizer leaves a title as it is exactly when the title holds
    no character that it replaces and has no whitespace at its ends. *)
Theorem sanitize_fixed_points (s : pystr) :
  sanitize_filename_component s = s
  <-> forallb (fun c => negb (forbidden c)) s = true /\ strip s = s.
Proof.
  split.
  - intros E. split.
    + apply forallb_forall. intros c H. apply negb_true_iff.
      rewrite <- E in H. exact (sanitize_clean s c H).
    + rewrite <- E at 1. rewrite sanitize_as_map, strip_idem.
      now rewrite <- sanitize_as_map.
  - intros [F S]. rewrite sanitize_as_map, map_fixed; [exact S|].
    intros c H. apply scrub_fixed.
    rewrite forallb_forall in F. now apply negb_true_iff, F.
Qed.

Lemma sanitize_fixed_points_witness :
  sanitize_filename_component (lit "Klassik heute") = lit "Klassik heute".
Proof.
  apply (proj2 (sanitize_fixed_points (lit "Klassik heute"))).
  split; vm_compute; reflexivity.
Defined.


(** *** The descriptor *)

Lemma escape_char_plain (c : N) : escaped_char c = false -> escape_char c = [c].
Proof.
  unfold escaped_char, escape_char. rewrite !orb_false_iff.
  intros [[[-> ->] ->] ->]. reflexivity.
Qed.

Lemma escape_char_length (c : N) :
  length (escape_char c) = if escaped_char c then 2%nat else 1%nat.
Proof.
  unfold escaped_char, escape_char.
  destruct (c =? BACKSLASH); [reflexivity|].
  destruct (c =? LF); [reflexivity|].
  destruct (c =? CR); [reflexivity|].
  destruct (c =? EQUALS); reflexivity.
Qed.

Lemma escape_char_one_line (c x : N) :
  In x (escape_char c) -> x <> LF /\ x <> CR.
Proof.
  unfold escape_char.
  destruct (c =? BACKSLASH) eqn:E1;
    [cbn; intros [<-|[<-|[]]]; split; discriminate|].
  destruct (c =? LF) eqn:E2;
    [cbn; intros [<-|[<-|[]]]; split; discriminate|].
  destruct (c =? CR) eqn:E3;
    [cbn; intros [<-|[<-|[]]]; split; discriminate|].
  destruct (c =? EQUALS) eqn:E4;
    [cbn; intros [<-|[<-|[]]]; split; discriminate|].
  intros [<-|[]]. apply N.eqb_neq in E2, E3. tauto.
Qed.

Lemma escape_one_line (s : pystr) (x : N) :
  In x (escape_for_ffmetadata (Some s)) -> x <> LF /\ x <> CR.
Proof.
  rewrite escape_as_flat_map, in_flat_map.
  intros [c [_ H]]. exact (escape_char_one_line c x H).
Qed.

Lemma count_occ_absent (s : pystr) (x : N) :
  ~ In x s -> count_occ N.eq_dec s x = 0%nat.
Proof. apply count_occ_not_In. Qed.

(** X6. An escaped value holds no newline and no carriage return, so it
    stays on its line of the descriptor; it is longer than the value by
    one character for every backslash, newline, carriage return and equals
    sign in it, and is the value itself when the value holds none of them.
    A missing value is escaped to the empty string. *)
Theorem escape_for_ffmetadata_one_line (s : pystr) :
  forallb (fun c => negb ((c =? LF) || (c =? CR)))
    (escape_for_ffmetadata (Some s)) = true
  /\ length (escape_for_ffmetadata (Some s))
     = (length s + length (filter escaped_char s))%nat
  /\ (forallb (fun c => negb (escaped_char c)) s = true ->
      escape_for_ffmetadata (Some s) = s)
  /\ escape_for_ffmetadata None = [].
Proof.
  split; [|split; [|split; [|reflexivity]]].
  - apply forallb_forall. intros x H.
    destruct (escape_one_line s x H) as [A B].
    apply N.eqb_neq in A, B. now rewrite A, B.
  - rewrite escape_as_flat_map.
    induction s as [|c s IH]; [reflexivity|].
    cbn [flat_map filter]. rewrite length_app, IH, escape_char_length.
    destruct (escaped_char c); cbn [length]; lia.
  - rewrite escape_as_flat_map.
    induction s as [|c s IH]; [reflexivity|].
    cbn [forallb flat_map]. rewrite andb_true_iff, negb_true_iff.
    intros [Hc Hs]. rewrite (escape_char_plain c Hc), (IH Hs). reflexivity.
Qed.

Lemma escape_for_ffmetadata_one_line_witness :
  escape_for_ffmetadata (Some (lit "2023-01-01")) = lit "2023-01-01".
Proof.
  apply (proj1 (proj2 (proj2 (escape_for_ffmetadata_one_line (lit "2023-01-01"))))).
  vm_compute. reflexivity.
Defined.

Lemma count_escaped (s : pystr) :
  count_occ N.eq_dec (escape_for_ffmetadata (Some s)) LF = 0%nat
  /\ count_occ N.eq_dec (escape_for_ffmetadata (Some s)) CR = 0%nat.
Proof.
  split; apply count_occ_not_In; intros H;
    destruct (escape_one_line s _ H); congruence.
Qed.

(** X7. The descriptor that is written has nine lines whatever the page
    says: it holds exactly eight newlines, the ones that join its lines,
    and no carriage return, since the values are escaped. *)
Theorem descriptor_has_nine_lines (m : Metadata) (episode_url : pystr) :
  length (ffmetadata_content m episode_url) = 9%nat
  /\ count_occ N.eq_dec (str_join [LF] (ffmetadata_content m episode_url)) LF
     = 8%nat
  /\ count_occ N.eq_dec (str_join [LF] (ffmetadata_content m episode_url)) CR
     = 0%nat.
Proof.
  split; [reflexivity|].
  unfold ffmetadata_content, str_join. cbn [flat_map].
  rewrite !count_occ_app.
  destruct (count_escaped (meta_episode_title m)) as [-> ->].
  destruct (count_escaped (meta_subtitle_for_description_tag m)) as [-> ->].
  destruct (count_escaped (meta_description_for_comment_tag m)) as [-> ->].
  destruct (count_escaped (meta_iso_date_str m)) as [-> ->].
  destruct (count_escaped episode_url) as [-> ->].
  split; reflexivity.
Qed.

(** *** The description *)

Lemma collapse_from_spec (s : pystr) :
  adjacent_whitespace (collapse_from false s) = false
  /\ adjacent_whitespace (collapse_from true s) = false
  /\ match collapse_from true s with
     | [] => True
     | c :: _ => py_isspace c = false
     end.
Proof.
  induction s as [|c s IH]; [cbn; tauto|].
  destruct IH as [F [T H]].
  assert (K : forall x t, py_isspace x = false ->
                adjacent_whitespace t = false ->
                adjacent_whitespace (x :: t) = false).
  { intros x [|y t] Hx Ht; [reflexivity|].
    cbn [adjacent_whitespace] in *. now rewrite Hx, Ht. }
  cbn [collapse_from].
  destruct (py_isspace c) eqn:Ec.
  - split; [|split; [exact T | exact H]].
    destruct s as [|c2 s]; [reflexivity|].
    destruct (py_isspace c2) eqn:E2.
    + destruct (collapse_from true (c2 :: s)) as [|y t] eqn:E; [reflexivity|].
      change (adjacent_whitespace (SPACE :: y :: t))
        with ((py_isspace SPACE && py_isspace y) || adjacent_whitespace (y :: t)).
      now rewrite H, andb_false_r, T.
    + assert (E : collapse_from false (c2 :: s) = c2 :: collapse_from false s)
        by (cbn [collapse_from]; now rewrite E2).
      rewrite E in *.
      change (adjacent_whitespace (c :: c2 :: collapse_from false s))
        with ((py_isspace c && py_isspace c2)
              || adjacent_whitespace (c2 :: collapse_from false s)).
      now rewrite E2, andb_false_r, F.
  - split; [now apply K|]. split; [now apply K | exact Ec].
Qed.

Lemma collapse_from_fixed (s : pystr) :
  adjacent_whitespace s = false -> collapse_from false s = s.
Proof.
  induction s as [|c s IH]; [reflexivity|].
  intros A. cbn [collapse_from].
  assert (As : adjacent_whitespace s = false).
  { destruct s as [|c2 s]; [reflexivity|].
    cbn [adjacent_whitespace] in A. now apply orb_false_iff in A. }
  destruct (py_isspace c) eqn:Ec; [|now rewrite IH].
  destruct s as [|c2 s]; [reflexivity|].
  cbn [adjacent_whitespace] in A. rewrite Ec in A. cbn [andb] in A.
  apply orb_false_iff in A. destruct A as [E2 _]. rewrite E2.
  now rewrite IH.
Qed.

(** X8. After the runs of whitespace are replaced, no two whitespace
    characters stand side by side in the description; a text without such
    a pair is left as it is, so that replacing twice changes nothing more. *)
Theorem re_sub_whitespace_runs_spec (s : pystr) :
  adjacent_whitespace (re_sub_whitespace_runs s) = false
  /\ re_sub_whitespace_runs (re_sub_whitespace_runs s)
     = re_sub_whitespace_runs s
  /\ (adjacent_whitespace s = false -> re_sub_whitespace_runs s = s).
Proof.
  unfold re_sub_whitespace_runs.
  destruct (collapse_from_spec s) as [F _].
  split; [exact F|]. split; [now apply collapse_from_fixed|].
  apply collapse_from_fixed.
Qed.

Lemma re_sub_whitespace_runs_spec_witness :
  re_sub_whitespace_runs (lit "a b c") = lit "a b c".
Proof.
  apply (proj2 (proj2 (re_sub_whitespace_runs_spec (lit "a b c")))).
  vm_compute. reflexivity.
Defined.


(** *** The two patterns *)

Lemma startswith_split (s l : pystr) :
  startswith s l = true -> s = l ++ skipn (length l) s.
Proof.
  revert s. induction l as [|x l IH]; intros s; [reflexivity|].
  destruct s as [|c s]; cbn [startswith]; [discriminate|].
  rewrite andb_true_iff, N.eqb_eq. intros [-> H].
  change ((c :: l) ++ skipn (length (c :: l)) (c :: s))
    with (c :: (l ++ skipn (length l) s)).
  now rewrite <- IH.
Qed.

Lemma skipn_app_length (l rest : pystr) : skipn (length l) (l ++ rest) = rest.
Proof. induction l as [|x l IH]; [reflexivity | exact IH]. Qed.

Lemma firstn_consumed (pre rest : pystr) :
  firstn (length (pre ++ rest) - length rest) (pre ++ rest) = pre.
Proof.
  rewrite length_app.
  replace (length pre + length rest - length rest)%nat with (length pre) by lia.
  induction pre as [|x pre IH]; [reflexivity|].
  change ((x :: pre) ++ rest) with (x :: (pre ++ rest)).
  cbn [length firstn]. now rewrite IH.
Qed.

Lemma re_lit_split {A : Type} (l : pystr) (k : @cont A) (s : pystr) (r : A) :
  re_lit l k s = Some r -> exists rest, s = l ++ rest /\ k rest = Some r.
Proof.
  unfold re_lit. destruct (startswith s l) eqn:E; [|discriminate].
  intros H. exists (skipn (length l) s). split; [now apply startswith_split | exact H].
Qed.

Lemma re_lit_here {A : Type} (l : pystr) (k : @cont A) (rest : pystr) :
  re_lit l k (l ++ rest) = k rest.
Proof. unfold re_lit. now rewrite startswith_app, skipn_app_length. Qed.

Lemma re_search_split {A : Type} (m : @cont A) (s : pystr) (r : A) :
  re_search m s = Some r -> exists a s', s = a ++ s' /\ m s' = Some r.
Proof.
  induction s as [|c s IH]; cbn [re_search].
  - destruct (m []) eqn:E; [|discriminate]. intros [= <-]. now exists [], [].
  - destruct (m (c :: s)) eqn:E.
    + intros [= <-]. now exists [], (c :: s).
    + intros H. destruct (IH H) as [a [s' [-> H']]].
      now exists (c :: a), s'.
Qed.

Lemma re_search_finds {A : Type} (m : @cont A) (a s' : pystr) (r : A) :
  m s' = Some r -> exists r', re_search m (a ++ s') = Some r'.
Proof.
  intros H. induction a as [|c a IH].
  - exists r. change ([] ++ s') with s'.
    destruct s'; cbn [re_search]; now rewrite H.
  - change ((c :: a) ++ s') with (c :: (a ++ s')). cbn [re_search].
    destruct (m (c :: (a ++ s'))) as [r0|]; [now exists r0 | exact IH].
Qed.

Lemma re_lazy_any_split {A : Type} (k : @cont A) (s : pystr) (r : A) :
  re_lazy_any k s = Some r -> exists a s', s = a ++ s' /\ k s' = Some r.
Proof.
  induction s as [|c s IH]; cbn [re_lazy_any].
  - destruct (k []) eqn:E; [|discriminate]. intros [= <-]. now exists [], [].
  - destruct (k (c :: s)) eqn:E.
    + intros [= <-]. now exists [], (c :: s).
    + intros H. destruct (IH H) as [a [s' [-> H']]].
      now exists (c :: a), s'.
Qed.

Lemma re_lazy_any_finds {A : Type} (k : @cont A) (a s' : pystr) (r : A) :
  k s' = Some r -> exists r', re_lazy_any k (a ++ s') = Some r'.
Proof.
  intros H. induction a as [|c a IH].
  - exists r. change ([] ++ s') with s'.
    destruct s'; cbn [re_lazy_any]; now rewrite H.
  - change ((c :: a) ++ s') with (c :: (a ++ s')). cbn [re_lazy_any].
    destruct (k (c :: (a ++ s'))) as [r0|]; [now exists r0 | exact IH].
Qed.

Lemma re_plus_split {A : Type} (cls : N -> bool) (k : @cont A) (s : pystr) (r : A) :
  re_plus cls k s = Some r ->
  exists pre rest,
    s = pre ++ rest /\ pre <> [] /\ forallb cls pre = true /\ k rest = Some r.
Proof.
  induction s as [|c s IH]; cbn [re_plus]; [discriminate|].
  destruct (cls c) eqn:Ec; [|discriminate].
  destruct (re_plus cls k s) eqn:E.
  - intros [= <-]. destruct (IH eq_refl) as [pre [rest [-> [_ [F H]]]]].
    exists (c :: pre), rest. repeat split; [discriminate | | exact H].
    cbn [forallb]. now rewrite Ec, F.
  - intros H. exists [c], s. repeat split; [discriminate | | exact H].
    cbn [forallb]. now rewrite Ec.
Qed.

Lemma re_plus_finds {A : Type} (cls : N -> bool) (k : @cont A)
    (pre rest : pystr) (r : A) :
  pre <> [] -> forallb cls pre = true -> k rest = Some r ->
  exists r', re_plus cls k (pre ++ rest) = Some r'.
Proof.
  intros NE F H. induction pre as [|c pre IH]; [congruence|].
  cbn [forallb] in F. apply andb_true_iff in F. destruct F as [Ec F].
  change ((c :: pre) ++ rest) with (c :: (pre ++ rest)). cbn [re_plus].
  rewrite Ec.
  destruct (re_plus cls k (pre ++ rest)) as [r0|] eqn:E; [now exists r0|].
  destruct pre as [|c2 pre].
  - exists r. exact H.
  - destruct (IH ltac:(discriminate) F) as [r' E']. congruence.
Qed.

(** X9. The pattern finds a link exactly in the pages that hold, somewhere
    after the opening of a teaser, an anchor that opens with an href of at
    least one character closed by a double quote; the link it returns is
    such an href of the page: it is not empty and holds no double quote. *)
Theorem teaser_link_search_spec (html : pystr) :
  (forall href, teaser_link_search html = Some href ->
     href <> []
     /\ forallb not_quote href = true
     /\ exists a b c,
          html = a ++ teaser_opening ++ b ++ anchor_opening ++ href
                   ++ [DQUOTE] ++ c)
  /\ (forall a b c href,
        html = a ++ teaser_opening ++ b ++ anchor_opening ++ href
                 ++ [DQUOTE] ++ c ->
        href <> [] -> forallb not_quote href = true ->
        exists found, teaser_link_search html = Some found).
Proof.
  split.
  - intros href H. unfold teaser_link_search in H.
    apply re_search_split in H. destruct H as [a [s1 [-> H]]].
    apply re_lit_split in H. destruct H as [s2 [-> H]].
    apply re_lazy_any_split in H. destruct H as [b [s3 [-> H]]].
    apply re_lit_split in H. destruct H as [s4 [-> H]].
    unfold re_group in H. apply re_plus_split in H.
    destruct H as [pre [rest [-> [NE [F H]]]]].
    rewrite firstn_consumed in H.
    apply re_lit_split in H. destruct H as [c [-> [= <-]]].
    split; [exact NE|]. split; [exact F|].
    exists a, b, c. reflexivity.
  - intros a b c href -> NE F. unfold teaser_link_search.
    fold teaser_opening. fold anchor_opening.
    assert (P : exists r,
               re_group (re_plus (fun c0 => negb (c0 =? DQUOTE)))
                 (fun relativeUrl => re_lit [DQUOTE] (fun _ => Some relativeUrl))
                 (href ++ [DQUOTE] ++ c) = Some r).
    { unfold re_group.
      apply (re_plus_finds _ _ href ([DQUOTE] ++ c)
               (firstn (length (href ++ [DQUOTE] ++ c) - length ([DQUOTE] ++ c))
                  (href ++ [DQUOTE] ++ c)));
        [exact NE | exact F|].
      now rewrite re_lit_here. }
    destruct P as [r P].
    assert (Q : exists r',
               re_lazy_any
                 (re_lit anchor_opening
                    (re_group (re_plus (fun c0 => negb (c0 =? DQUOTE)))
                       (fun relativeUrl =>
                          re_lit [DQUOTE] (fun _ => Some relativeUrl))))
                 (b ++ anchor_opening ++ href ++ [DQUOTE] ++ c) = Some r').
    { apply (re_lazy_any_finds _ b _ r). now rewrite re_lit_here. }
    destruct Q as [r' Q].
    apply (re_search_finds _ a _ r'). now rewrite re_lit_here.
Qed.

Lemma teaser_link_search_spec_witness :
  lit "/a/b-100.html" <> []
  /\ exists found, teaser_link_search listing_page = Some found.
Proof.
  split.
  - apply (proj1 (teaser_link_search_spec listing_page) (lit "/a/b-100.html")).
    vm_compute. reflexivity.
  - apply (proj2 (teaser_link_search_spec listing_page)
             [] ([DQUOTE] ++ lit ">") (lit ">x</a></article>")
             (lit "/a/b-100.html"));
      vm_compute; try reflexivity; discriminate.
Defined.

Lemma re_class_split {A : Type} (cls : N -> bool) (k : @cont A) (s : pystr) (r : A) :
  re_class cls k s = Some r ->
  exists c rest, s = c :: rest /\ cls c = true /\ k rest = Some r.
Proof.
  unfold re_class. destruct s as [|c s]; [discriminate|].
  destruct (cls c) eqn:E; [|discriminate].
  intros H. now exists c, s.
Qed.

Lemma date_at_head_sound (s m : pystr) :
  date_at_head s = Some m ->
  date_shaped m = true /\ exists b, s = m ++ b.
Proof.
  unfold date_at_head, re_group. cbn [re_repeat]. intros H.
  apply re_class_split in H. destruct H as [d1 [s1 [-> [D1 H]]]].
  apply re_class_split in H. destruct H as [d2 [s2 [-> [D2 H]]]].
  apply re_lit_split in H. destruct H as [s3 [-> H]].
  apply re_class_split in H. destruct H as [m1 [s4 [-> [M1 H]]]].
  apply re_class_split in H. destruct H as [m2 [s5 [-> [M2 H]]]].
  apply re_lit_split in H. destruct H as [s6 [-> H]].
  apply re_class_split in H. destruct H as [y1 [s7 [-> [Y1 H]]]].
  apply re_class_split in H. destruct H as [y2 [s8 [-> [Y2 H]]]].
  apply re_class_split in H. destruct H as [y3 [s9 [-> [Y3 H]]]].
  apply re_class_split in H. destruct H as [y4 [b [-> [Y4 H]]]].
  change (d1 :: d2 :: [DOT] ++ m1 :: m2 :: [DOT] ++ y1 :: y2 :: y3 :: y4 :: b)
    with ([d1; d2; DOT; m1; m2; DOT; y1; y2; y3; y4] ++ b) in H.
  rewrite firstn_consumed in H. injection H as <-.
  split; [|now exists b].
  cbn [date_shaped]. rewrite D1, D2, M1, M2, Y1, Y2, Y3, Y4, !N.eqb_refl.
  reflexivity.
Qed.

Lemma date_at_head_complete (m b : pystr) :
  date_shaped m = true -> date_at_head (m ++ b) = Some m.
Proof.
  destruct m as [|d1 [|d2 [|p [|m1 [|m2 [|q [|y1 [|y2 [|y3 [|y4 [|x m]]]]]]]]]]];
    try discriminate.
  cbn [date_shaped]. rewrite !andb_true_iff, !N.eqb_eq.
  intros [[[[[[[[[D1 D2] ->] M1] M2] ->] Y1] Y2] Y3] Y4].
  unfold date_at_head, re_group.
  change ([d1; d2; DOT; m1; m2; DOT; y1; y2; y3; y4] ++ b)
    with (d1 :: d2 :: [DOT] ++ m1 :: m2 :: [DOT] ++ y1 :: y2 :: y3 :: y4 :: b).
  cbn [re_repeat re_class]. rewrite D1, D2, re_lit_here.
  cbn [re_class]. rewrite M1, M2, re_lit_here.
  cbn [re_class]. rewrite Y1, Y2, Y3, Y4.
  change (d1 :: d2 :: [DOT] ++ m1 :: m2 :: [DOT] ++ y1 :: y2 :: y3 :: y4 :: b)
    with ([d1; d2; DOT; m1; m2; DOT; y1; y2; y3; y4] ++ b).
  now rewrite firstn_consumed.
Qed.

(** X10. The date search finds a date exactly in the texts that hold
    somewhere two digits, a dot, two digits, a dot and four digits; what it
    returns is such a piece of the text, ten characters long. *)
Theorem date_search_spec (s : pystr) :
  (forall m, date_search s = Some m ->
     date_shaped m = true /\ length m = 10%nat
     /\ exists a b, s = a ++ m ++ b)
  /\ (forall a m b, s = a ++ m ++ b -> date_shaped m = true ->
        exists found, date_search s = Some found)
  /\ ((length s < 10)%nat -> date_search s = None).
Proof.
  assert (S : forall m, date_search s = Some m ->
                date_shaped m = true /\ length m = 10%nat
                /\ exists a b, s = a ++ m ++ b).
  { intros m H. unfold date_search in H.
    apply re_search_split in H. destruct H as [a [s' [-> H]]].
    apply date_at_head_sound in H. destruct H as [Sh [b ->]].
    split; [exact Sh|]. split; [|now exists a, b].
    destruct m as [|d1 [|d2 [|p [|m1 [|m2 [|q [|y1 [|y2 [|y3 [|y4 [|x m]]]]]]]]]]];
      try discriminate Sh. reflexivity. }
  split; [exact S|]. split.
  - intros a m b -> Sh. unfold date_search.
    apply (re_search_finds _ a (m ++ b) m).
    now apply date_at_head_complete.
  - intros L. destruct (date_search s) as [m|] eqn:E; [|reflexivity].
    destruct (S m eq_refl) as [_ [Lm [a [b ->]]]].
    rewrite !length_app in L. lia.
Qed.

Lemma date_search_spec_witness :
  length (lit "01.01.2023") = 10%nat /\ date_search (lit "1.1.2023") = None.
Proof.
  split.
  - apply (proj1 (date_search_spec (lit "am 01.01.2023, 10 Uhr")) (lit "01.01.2023")).
    vm_compute. reflexivity.
  - apply (proj2 (proj2 (date_search_spec (lit "1.1.2023")))).
    vm_compute. lia.
Defined.


(** *** [run_external_command] *)

(** X11. [run_external_command] never raises: whatever becomes of the child
    process, it makes the one call with the executable before its
    arguments and returns a pair; the flag of the pair is true exactly
    when the process completed with return code zero, and the text is the
    stripped output on success, the stripped error output after a
    non-zero return code, the note that the executable was not found, or
    the text of any other exception. *)
Theorem run_external_command_never_raises {W : Type} (h : handler W) (w : W)
    (executable : pystr) (arguments : list pystr) (workdir : option pystr) :
  let a := h _ (subprocess_run (executable :: arguments) workdir) w in
  let r := run h (run_external_command executable arguments workdir) w in
  result r = Returned (tool_succeeded (fst a), command_text executable (fst a))
  /\ trace r = [EvRun (executable :: arguments) workdir (fst a)]
  /\ final r = snd a.
Proof.
  intros a r. subst a r. unfold_script. cbn.
  destruct (h _ (subprocess_run (executable :: arguments) workdir) w)
    as [[x|p] w1]; cbn.
  - destruct x; repeat split; reflexivity.
  - destruct (returncode p =? 0)%Z eqn:E; cbn; rewrite ?E;
      repeat split; reflexivity.
Qed.

(** *** Runs of [main] *)

(** X12. When the target directory cannot be created, the run ends with
    exit status 1 and has made no other call: no temporary directory, no
    request. *)
Theorem makedirs_failure_ends_run {D : Dom} {W : Type} (h : handler W)
    (w w' : W) (environ : option pystr) (x : exception) :
  h _ (os_makedirs (TARGET_DIR_CONTAINER environ)) w = (inl x, w') ->
  trace (run h (main environ) w)
  = [EvMakedirs (TARGET_DIR_CONTAINER environ) (inl x)]
  /\ exit_status (result (run h (main environ) w)) = 1%Z.
Proof.
  intros E. unfold_script. cbn. rewrite E. cbn. split; reflexivity.
Qed.

Lemma makedirs_failure_ends_run_witness :
  exit_status (result (run barren_handler (main None) tt)) = 1%Z.
Proof.
  apply (makedirs_failure_ends_run barren_handler tt tt None
           (OSError (lit "Read-only file system"))).
  reflexivity.
Defined.

(** X13. Every run that created its temporary directory removes it, once,
    as its last call, however the run ends; a run that got no temporary
    directory removes nothing and calls no tool and writes no file. *)
Theorem temporary_directory_removed {D : Dom} {W : Type} (h : handler W)
    (w : W) (environ : option pystr) :
  let tr := trace (run h (main environ) w) in
  match created_dir tr with
  | Some d =>
      last tr (EvCleanup []) = EvCleanup d
      /\ length (filter is_cleanup tr) = 1%nat
  | None => filter is_cleanup tr = [] /\ work tr = []
  end.
Proof.
  intros tr. subst tr. unfold_script. unfold episode_link_tag.
  explore h.
  all: cbn; split; reflexivity.
Qed.

(** X14. When a page request raises or is answered with a status from 400
    to 599, the run ends with exit status 1; it has checked no file,
    called no tool and written nothing, and no request follows the failed
    one. A run makes at most two requests, each with a timeout of 20. *)
Theorem failed_request_ends_run {D : Dom} {W : Type} (h : handler W)
    (w : W) (environ : option pystr) :
  let r := run h (main environ) w in
  (existsb is_failed_request (trace r) = true ->
   exit_status (result r) = 1%Z
   /\ first_exists (trace r) = None
   /\ work (trace r) = []
   /\ last_request_failed (trace r) = true)
  /\ (length (filter is_request (trace r)) <= 2)%nat
  /\ forallb (fun e => match e with
                       | EvGet _ timeout _ => (timeout =? 20)%Z
                       | _ => true
                       end) (trace r) = true.
Proof.
  intros r. subst r. unfold_script. unfold episode_link_tag.
  explore h.
  all: cbn; (split; [|split; [lia | reflexivity]]).
  all: intros F; try discriminate F; repeat split; try reflexivity.
  all: try (rewrite ?orb_false_r, ?orb_true_r in F; exact F).
Qed.

Lemma failed_request_ends_run_witness :
  exit_status (result (run world_handler (main None) offline)) = 1%Z.
Proof.
  apply (proj1 (failed_request_ends_run world_handler offline None)).
  vm_compute. reflexivity.
Defined.

(** X15. The exit status of a run is 0 or 1, and it is 0 exactly when the
    target file was found present or the move to the target succeeded. *)
Theorem exit_status_of_main {D : Dom} {W : Type} (h : handler W)
    (w : W) (environ : option pystr) :
  let r := run h (main environ) w in
  (exit_status (result r) =? 0)%Z
  = target_present (trace r) || existsb is_successful_move (trace r)
  /\ (exit_status (result r) =? 1)%Z
     = negb (target_present (trace r)
             || existsb is_successful_move (trace r)).
Proof.
  intros r. subst r. unfold_script. unfold episode_link_tag.
  explore h.
  all: cbn; split; reflexivity.
Qed.

(** X16. What a run does to files and with tools is a beginning of one
    fixed sequence: the downloader writes into the temporary directory
    from the URL of the episode page that was requested, the descriptor is
    written beside it, the remuxer reads those two files and writes the
    tagged file, and that file is moved to the path whose existence was
    checked. No step is taken before the one in front of it. *)
Theorem work_of_main_in_order {D : Dom} {W : Type} (h : handler W)
    (w : W) (environ : option pystr) :
  let tr := trace (run h (main environ) w) in
  let temp_dir := default_dir (created_dir tr) in
  work_in_order
    (os_path_join temp_dir (lit "downloaded_audio_temp.m4a"))
    (os_path_join temp_dir (lit "metadata.txt"))
    (os_path_join temp_dir (lit "tagged_audio_temp.m4a"))
    (last_request_url tr) (checked_path tr) (work tr).
Proof.
  intros tr temp_dir. subst temp_dir tr. unfold_script. unfold episode_link_tag.
  explore h.
  all: cbn; repeat split; reflexivity.
Qed.

(** X17. When the descriptor cannot be written or the tagged file cannot be
    moved, the run ends with exit status 1; after the failure it calls no
    tool and writes and moves nothing, so the remuxer is not run without a
    descriptor. *)
Theorem failed_write_ends_run {D : Dom} {W : Type} (h : handler W)
    (w : W) (environ : option pystr) :
  let r := run h (main environ) w in
  stops_at_failed_write (trace r) = true
  /\ (existsb is_failed_write (trace r) = true ->
      exit_status (result r) = 1%Z).
Proof.
  intros r. subst r. unfold_script. unfold episode_link_tag.
  explore h.
  all: cbn; split; [reflexivity|].
  all: intros F; try discriminate F; reflexivity.
Qed.

Lemma failed_write_ends_run_witness :
  exit_status (result (run full_disk_handler (main None) (scenario [] true)))
  = 1%Z.
Proof.
  apply (proj2 (failed_write_ends_run full_disk_handler (scenario [] true) None)).
  vm_compute. reflexivity.
Defined.

(** X18. The descriptor a run writes and the name of the file it publishes
    come from the same metadata: the text written is the nine lines for
    some metadata and the URL of the episode page that was requested, and
    the path whose existence was checked is the target path for the ISO
    date and the title of that metadata. *)
Theorem descriptor_matches_target {D : Dom} {W : Type} (h : handler W)
    (w : W) (environ : option pystr) :
  let tr := trace (run h (main environ) w) in
  match written_descriptor tr with
  | Some content =>
      exists m,
        content = str_join [LF] (ffmetadata_content m (last_request_url tr))
        /\ checked_path tr
           = final_filepath_in_target_dir environ
               (meta_iso_date_str m) (meta_episode_title m)
  | None => True
  end.
Proof.
  intros tr. subst tr. unfold_script. unfold episode_link_tag.
  explore h.
  all: cbn; try exact I.
  all: eexists; split; reflexivity.
Qed.

